(** * Systematic Engineering Framework: validation and generation engine

    A shallow embedding of [tools/systematic_engineering_core.py] and the
    properties of its validation engine, specification extractor and
    template mechanism.

    Modelling conventions.
    - Python [str] values are Rocq [string]s holding the UTF-8 bytes of the
      text.  Substring search and splitting on an ASCII separator give the
      same answer on bytes as on code points.
    - A JSON object read with [d[k]] has a plain field for [k]; a key read
      with [d.get(k, default)] has an [option] field, [None] standing for
      an absent key.
    - The engine's issue list is a Python list object: it lives in a heap
      of list objects and the Framework holds a reference to it.
    - The file system is what the code observes of it: the answer of
      [Path.glob] together with [read_text] for each file found, and the
      answer of [Path.exists].  Documents are readable text files.
    - [print] calls are left out: they change no state and return nothing. *)

From stdpp Require Import gmap strings list.
From Stdlib Require Import ZArith Ascii DecimalString.

Local Open Scope string_scope.
Local Open Scope list_scope.
Local Open Scope Z_scope.

(** ** Python string operations *)

Module Str.

(** [s.startswith(p)] *)
Fixpoint startswith (p s : string) : bool :=
  match p, s with
  | EmptyString, _ => true
  | String _ _, EmptyString => false
  | String a p', String b s' => if Ascii.eqb a b then startswith p' s' else false
  end.

(** [sub in s] *)
Fixpoint contains (sub s : string) : bool :=
  startswith sub s ||
  match s with
  | EmptyString => false
  | String _ s' => contains sub s'
  end.

(** [s.split(sep)] for a non-empty [sep]: the separators are found left to
    right and do not overlap.  [skip] counts the characters of a separator
    just found that are still to be passed over. *)
Fixpoint split_go (sep : string) (skip : nat) (s : string) : list string :=
  match s with
  | EmptyString => [EmptyString]
  | String c rest =>
      match skip with
      | S k => split_go sep k rest
      | O =>
          if startswith sep s
          then EmptyString :: split_go sep (String.length sep - 1) rest
          else match split_go sep 0 rest with
               | h :: t => String c h :: t
               | [] => [String c EmptyString]
               end
      end
  end.

Definition split (sep s : string) : list string := split_go sep 0 s.

(** [sep.join(l)] *)
Fixpoint join (sep : string) (l : list string) : string :=
  match l with
  | [] => EmptyString
  | [x] => x
  | x :: rest => x +:+ sep +:+ join sep rest
  end.

(** [l[start:stop]] for [0 <= start] and [0 <= stop]. *)
Definition slice {A} (l : list A) (start stop : Z) : list A :=
  take (Z.to_nat (stop - start)) (drop (Z.to_nat start) l).

Definition len {A} (l : list A) : Z := Z.of_nat (length l).

End Str.

(** ** The traceability-ID pattern [T\d+-[A-Z]+-\d+]

    A text is held as its UTF-8 bytes, so a character of the pattern's
    class [\d] is a run of one to four bytes: the class holds every
    Unicode decimal digit (category Nd), not only [0] to [9].  [T], the
    dash and [[A-Z]] are single bytes.  Each quantified class is
    followed by a character outside the class (or by the end of the
    pattern), so the greedy match is the only candidate at a position
    and no backtracking can succeed where it fails. *)

Module Re.

(** The code points of the class [\d], as ranges with both ends
    included: the decimal digits of the Unicode database 14.0.0, the one
    of CPython 3.11. *)
Definition decimal_ranges : list (N * N) :=
  [(48, 57); (1632, 1641); (1776, 1785); (1984, 1993); (2406, 2415);
   (2534, 2543); (2662, 2671); (2790, 2799); (2918, 2927); (3046, 3055);
   (3174, 3183); (3302, 3311); (3430, 3439); (3558, 3567); (3664, 3673);
   (3792, 3801); (3872, 3881); (4160, 4169); (4240, 4249); (6112, 6121);
   (6160, 6169); (6470, 6479); (6608, 6617); (6784, 6793); (6800, 6809);
   (6992, 7001); (7088, 7097); (7232, 7241); (7248, 7257); (42528, 42537);
   (43216, 43225); (43264, 43273); (43472, 43481); (43504, 43513);
   (43600, 43609); (44016, 44025); (65296, 65305); (66720, 66729);
   (68912, 68921); (69734, 69743); (69872, 69881); (69942, 69951);
   (70096, 70105); (70384, 70393); (70736, 70745); (70864, 70873);
   (71248, 71257); (71360, 71369); (71472, 71481); (71904, 71913);
   (72016, 72025); (72784, 72793); (73040, 73049); (73120, 73129);
   (92768, 92777); (92864, 92873); (93008, 93017); (120782, 120831);
   (123200, 123209); (123632, 123641); (125264, 125273); (130032, 130041)]%N.

Definition is_decimal (cp : N) : bool :=
  existsb (fun '(lo, hi) => (lo <=? cp)%N && (cp <=? hi)%N) decimal_ranges.

Definition byte (c : ascii) : N := N_of_ascii c.

(** A continuation byte of UTF-8: [10xxxxxx]. *)
Definition is_cont (c : ascii) : bool := (128 <=? byte c)%N && (byte c <? 192)%N.

(** The first character of a UTF-8 text: its code point and the number
    of bytes it takes.  Encodings longer than needed are no characters. *)
Definition utf8_decode (s : string) : option (N * nat) :=
  match s with
  | EmptyString => None
  | String c1 r1 =>
      let b1 := byte c1 in
      if (b1 <? 128)%N then Some (b1, 1%nat)
      else if (b1 <? 192)%N then None
      else if (b1 <? 224)%N then
        match r1 with
        | String c2 _ =>
            let cp := ((b1 - 192) * 64 + (byte c2 - 128))%N in
            if is_cont c2 && (128 <=? cp)%N then Some (cp, 2%nat) else None
        | _ => None
        end
      else if (b1 <? 240)%N then
        match r1 with
        | String c2 (String c3 _) =>
            let cp := ((b1 - 224) * 4096 + (byte c2 - 128) * 64 + (byte c3 - 128))%N in
            if is_cont c2 && is_cont c3 && (2048 <=? cp)%N then Some (cp, 3%nat) else None
        | _ => None
        end
      else
        match r1 with
        | String c2 (String c3 (String c4 _)) =>
            let cp := ((b1 - 240) * 262144 + (byte c2 - 128) * 4096
                       + (byte c3 - 128) * 64 + (byte c4 - 128))%N in
            if is_cont c2 && is_cont c3 && is_cont c4 && (65536 <=? cp)%N
            then Some (cp, 4%nat) else None
        | _ => None
        end
  end.

(** The number of bytes of the decimal digit a text starts with, 0 when
    it starts with none. *)
Definition digit_len (s : string) : nat :=
  match utf8_decode s with
  | Some (cp, n) => if is_decimal cp then n else 0%nat
  | None => 0%nat
  end.

Definition is_upper (c : ascii) : bool :=
  let n := nat_of_ascii c in (65 <=? n)%nat && (n <=? 90)%nat.

(** The longest prefix made of characters of a class, and what follows it. *)
Fixpoint span (p : ascii -> bool) (s : string) : string * string :=
  match s with
  | EmptyString => (EmptyString, EmptyString)
  | String c r =>
      if p c then let '(a, b) := span p r in (String c a, b)
      else (EmptyString, s)
  end.

(** The longest prefix made of decimal digits, and what follows it.
    [skip] counts the bytes of the digit being taken that are still to
    come. *)
Fixpoint span_digits_go (skip : nat) (s : string) : string * string :=
  match s with
  | EmptyString => (EmptyString, EmptyString)
  | String c r =>
      match skip with
      | S k => let '(a, b) := span_digits_go k r in (String c a, b)
      | O =>
          match digit_len s with
          | O => (EmptyString, s)
          | S k => let '(a, b) := span_digits_go k r in (String c a, b)
          end
      end
  end.

Definition span_digits (s : string) : string * string := span_digits_go 0 s.

(** Whether a text is made of decimal digits only. *)
Fixpoint digits_only_go (skip : nat) (s : string) : bool :=
  match s with
  | EmptyString => Nat.eqb skip 0
  | String _ r =>
      match skip with
      | S k => digits_only_go k r
      | O =>
          match digit_len s with
          | O => false
          | S k => digits_only_go k r
          end
      end
  end.

Definition digits_only (s : string) : bool := digits_only_go 0 s.

(** The text matched by the pattern at the start of [s], if any. *)
Definition match_id (s : string) : option string :=
  match s with
  | String "T" r1 =>
      match span_digits r1 with
      | (String _ _ as tier, String "-" r2) =>
          match span is_upper r2 with
          | (String _ _ as cat, String "-" r3) =>
              match span_digits r3 with
              | (String _ _ as num, _) =>
                  Some ("T" +:+ tier +:+ "-" +:+ cat +:+ "-" +:+ num)
              | _ => None
              end
          | _ => None
          end
      | _ => None
      end
  | _ => None
  end.

(** [re.findall(pattern, s)]: all matches, left to right, not overlapping. *)
Fixpoint findall_go (skip : nat) (s : string) : list string :=
  match s with
  | EmptyString => []
  | String _ rest =>
      match skip with
      | S k => findall_go k rest
      | O =>
          match match_id s with
          | Some m => m :: findall_go (String.length m - 1) rest
          | None => findall_go 0 rest
          end
      end
  end.

Definition findall_ids (s : string) : list string := findall_go 0 s.

End Re.

(** ** Data model *)

(** [ValidationIssue] (a dataclass). *)
Record ValidationIssue := mkValidationIssue {
  severity : string;
  category : string;
  message : string;
  file_path : option string;
  line_number : option Z
}.

(** One entry of [config["code_generators"]].  The engine reads it only
    through [.get]. *)
Record GeneratorConfig := mkGeneratorConfig {
  template : option string;
  target_struct : option string;
  trait_impl : option string;
  safety_requirements : option (list string);
  traceability_ids : option (list string)
}.

Record TraceabilitySchema := mkTraceabilitySchema {
  id_format : option string
}.

Record ValidationRules := mkValidationRules {
  cross_reference_targets : option (list string);
  required_derivation_fields : option (list string)
}.

(** The project configuration as [json.load] returns it.  [project_name]
    is read by subscript ([validate_all] raises [KeyError] without it), so
    it is a field every configuration has; the other keys are read with
    [.get] and may be absent.  [code_generators] keeps the order of the
    JSON object; its keys are distinct. *)
Record Config := mkConfig {
  project_name : string;
  traceability_schema : option TraceabilitySchema;
  code_generators : option (list (string * GeneratorConfig));
  validation_rules : option ValidationRules
}.

(** [CodeTemplate]: an object with the one method [generate]. *)
Record CodeTemplate := mkCodeTemplate {
  generate : GeneratorConfig -> list string -> string
}.

(** References to list objects. *)
Abbreviation loc := positive.

(** [SystematicEngineeringFramework]: the attributes of [self]. *)
Record Framework := mkFramework {
  config_path : string;
  config : Config;
  docs_dir : string;
  validation_issues : loc;
  templates : gmap string CodeTemplate
}.

(** The interpreter state the engine acts on: the Framework object and
    the heap of issue lists. *)
Record PyState := mkPyState {
  self : Framework;
  heap : gmap loc (list ValidationIssue)
}.

(** What the code observes of the file system.  [glob dir pattern] lists
    the files of [dir] matching [pattern] in directory iteration order,
    each with the text [read_text] returns for it; [path_exists p] is
    [Path(p).exists()]. *)
Record FileSystem := mkFileSystem {
  glob : string -> string -> list (string * string);
  path_exists : string -> bool
}.

(** [Path(d) / t]: an absolute [t] replaces [d], an empty [t] leaves it. *)
Definition path_join (d t : string) : string :=
  match t with
  | EmptyString => d
  | String "/" _ => t
  | _ => d +:+ "/" +:+ t
  end.

(** How a call of [validate_all] ends. *)
Inductive Outcome :=
| Returned (issues : loc)
| Exited (status : Z).

(** ** The state monad of the engine *)

Definition M (A : Type) : Type := PyState -> A * PyState.

#[export] Instance M_ret : MRet M := fun _ x st => (x, st).
#[export] Instance M_bind : MBind M := fun _ _ f m st => let '(x, st') := m st in f x st'.

Definition get_self : M Framework := fun st => (self st, st).

(** [[]]: a new, empty list object. *)
Definition new_list : M loc :=
  fun st =>
    let l := fresh (dom (heap st)) in
    (l, mkPyState (self st) (<[l := []]> (heap st))).

(** [self.validation_issues = l] *)
Definition set_validation_issues (l : loc) : M unit :=
  fun st =>
    let s := self st in
    (tt, mkPyState (mkFramework (config_path s) (config s) (docs_dir s) l (templates s))
                   (heap st)).

(** [self.validation_issues.append(issue)] *)
Definition append_issue (issue : ValidationIssue) : M unit :=
  fun st =>
    (tt, mkPyState (self st)
                   (alter (fun l => l ++ [issue]) (validation_issues (self st)) (heap st))).

(** Reading the list [self.validation_issues] refers to. *)
Definition read_issues : M (list ValidationIssue) :=
  fun st => (default [] (heap st !! validation_issues (self st)), st).

(** [for x in xs: body(x)] *)
Fixpoint for_each {A} (xs : list A) (body : A -> M unit) : M unit :=
  match xs with
  | [] => mret tt
  | x :: rest => body x ;; for_each rest body
  end.

(** ** Templates *)

Definition _build_traceability_comment (config : GeneratorConfig) (specs : list string) : string :=
  let ids := default [] (traceability_ids config) in
  match ids with
  | [] => "//! Generated from project specifications"
  | _ =>
      "//! 🔗 " +:+ Str.join ", " ids +:+ ": Generated Implementation\n//! AI Traceability: "
      +:+ match specs with
          | s0 :: _ => s0
          | [] => "Generated from specifications"
          end
  end.

Definition HalImplementationTemplate_generate
    (config : GeneratorConfig) (specs : list string) : string :=
  let struct_name := default "GenericHalImpl" (target_struct config) in
  let trait_impl := default "GenericTrait" (trait_impl config) in
  let safety_reqs := default [] (safety_requirements config) in
  let traceability_comment := _build_traceability_comment config specs in
  "//! Generated HAL Implementation
//! 
" +:+ traceability_comment +:+ "

use crate::{HalResult, HalError};

/// Hardware-specific implementation
pub struct " +:+ struct_name +:+ " {
    initialized: bool,
    // TODO: Add hardware-specific fields
}

impl " +:+ struct_name +:+ " {
    pub fn new() -> Self {
        Self {
            initialized: false,
        }
    }
    
    pub fn init(&mut self) -> HalResult<()> {
        // TODO: Initialize hardware
        self.initialized = true;
        Ok(())
    }
}

impl " +:+ trait_impl +:+ " for " +:+ struct_name +:+ " {
    // TODO: Implement trait methods based on specifications
}

#[cfg(test)]
mod tests {
    use super::*;
    
    #[test]
    fn test_initialization() {
        let mut impl_instance = " +:+ struct_name +:+ "::new();
        assert!(impl_instance.init().is_ok());
    }
}".

Definition ControlSystemTemplate_generate
    (config : GeneratorConfig) (specs : list string) : string :=
  let struct_name := default "GenericController" (target_struct config) in
  "//! Generated Control System
//! 
//! Generated from specifications

use crate::{HalResult, HalError};

pub struct " +:+ struct_name +:+ " {
    enabled: bool,
    // TODO: Add control-specific fields
}

impl " +:+ struct_name +:+ " {
    pub fn new() -> Self {
        Self {
            enabled: false,
        }
    }
    
    /// Main control loop update
    pub fn update(&mut self, dt: f32) -> HalResult<()> {
        // TODO: Implement control logic from specifications
        Ok(())
    }
}".

Definition HalImplementationTemplate : CodeTemplate :=
  mkCodeTemplate HalImplementationTemplate_generate.

Definition ControlSystemTemplate : CodeTemplate :=
  mkCodeTemplate ControlSystemTemplate_generate.

(** ** The Framework *)

(** What [_load_config] and [__init__] may raise. *)
Inductive Result (A : Type) :=
| Ok (a : A)
| Raise (exn : string).
Arguments Ok {A} a.
Arguments Raise {A} exn.

(** [_load_config]: [read] is what [open(self.config_path)] followed by
    [json.load] gives, [None] when either raises. *)
Definition _load_config (read : option Config) : Result Config :=
  match read with
  | Some cfg => Ok cfg
  | None => Raise "RuntimeError: Failed to load project config"
  end.

(** The attribute assignments of [__init__], once the configuration is
    loaded, on the heap [h]. *)
Definition init_attributes (config_path : string) (cfg : Config)
    (h : gmap loc (list ValidationIssue)) : PyState :=
  let l := fresh (dom h) in
  mkPyState
    (mkFramework config_path cfg "docs" l
       (<["hal_implementation" := HalImplementationTemplate]>
          (<["control_system" := ControlSystemTemplate]> ∅)))
    (<[l := []]> h).

(** [SystematicEngineeringFramework(config_path)] *)
Definition __init__ (config_path : string) (read : option Config)
    (h : gmap loc (list ValidationIssue)) : Result PyState :=
  match _load_config read with
  | Raise e => Raise e
  | Ok cfg => Ok (init_attributes config_path cfg h)
  end.

Definition duplicate_issue (dup_id : string) : ValidationIssue :=
  mkValidationIssue "error" "duplicate_id" ("Duplicate traceability ID: " +:+ dup_id) None None.

Definition missing_issue (target : string) : ValidationIssue :=
  mkValidationIssue "warning" "missing_file" ("Referenced file missing: " +:+ target) None None.

(** The body of [for id_str in ids_in_file], on the pair of local
    variables [(found_ids, duplicate_ids)]. *)
Definition scan_id (acc : gset string * list string) (id_str : string)
    : gset string * list string :=
  let '(found_ids, duplicate_ids) := acc in
  if decide (id_str ∈ found_ids)
  then (found_ids, duplicate_ids ++ [id_str])
  else ({[id_str]} ∪ found_ids, duplicate_ids).

(** The body of [for doc_file in self.docs_dir.glob("*.md")]. *)
Definition scan_doc (acc : gset string * list string) (doc_file : string * string)
    : gset string * list string :=
  let content := doc_file.2 in
  let ids_in_file := Re.findall_ids content in
  fold_left scan_id ids_in_file acc.

Definition _validate_traceability_ids (fs : FileSystem) : M unit :=
  s ← get_self;
  let schema := default (mkTraceabilitySchema None) (traceability_schema (config s)) in
  let id_format := default "{tier}-{category}-{number:03d}" (id_format schema) in
  let '(found_ids, duplicate_ids) :=
    fold_left scan_doc (glob fs (docs_dir s) "*.md") (∅, []) in
  for_each duplicate_ids (fun dup_id => append_issue (duplicate_issue dup_id)).

Definition _validate_cross_references (fs : FileSystem) : M unit :=
  s ← get_self;
  let validation_rules := default (mkValidationRules None None) (validation_rules (config s)) in
  let targets := default [] (cross_reference_targets validation_rules) in
  for_each targets (fun target =>
    s ← get_self;
    if negb (path_exists fs (path_join (docs_dir s) target))
    then append_issue (missing_issue target)
    else mret tt).

Definition _validate_derivations : M unit :=
  s ← get_self;
  let validation_rules := default (mkValidationRules None None) (validation_rules (config s)) in
  let required_fields := default [] (required_derivation_fields validation_rules) in
  mret tt.

Definition is_error (issue : ValidationIssue) : bool :=
  String.eqb (severity issue) "error".

Definition validate_all (fs : FileSystem) (blocking : bool) : M Outcome :=
  l ← new_list;
  set_validation_issues l;;
  _validate_traceability_ids fs;;
  _validate_cross_references fs;;
  _validate_derivations;;
  issues ← read_issues;
  if blocking && existsb is_error issues
  then mret (Exited 1)
  else s ← get_self; mret (Returned (validation_issues s)).

(** The loop [for i, line in enumerate(lines)] of the extractor, at index
    [i] with [rest] still to visit; it ends at the first match. *)
Fixpoint scan_lines (trace_id : string) (lines : list string) (i : Z)
    (rest : list string) (specs : list string) : list string :=
  match rest with
  | [] => specs
  | line :: rest' =>
      if Str.contains trace_id line then
        let start := Z.max 0 (i - 2) in
        let stop := Z.min (Str.len lines) (i + 5) in
        let context := Str.join "\n" (Str.slice lines start stop) in
        specs ++ [context]
      else scan_lines trace_id lines (i + 1) rest' specs
  end.

(** The body of [for trace_id in traceability_ids]. *)
Definition extract_id (content : string) (specs : list string) (trace_id : string)
    : list string :=
  if Str.contains trace_id content then
    let lines := Str.split "\n" content in
    scan_lines trace_id lines 0 lines specs
  else specs.

Definition _extract_specifications (fs : FileSystem) (s : Framework)
    (traceability_ids : list string) : list string :=
  fold_left
    (fun specs doc_file =>
       let content := doc_file.2 in
       fold_left (extract_id content) traceability_ids specs)
    (glob fs (docs_dir s) "*.md") [].

(** [d.get(k)] on a dict held as its items in order. *)
Fixpoint dict_get {V} (k : string) (d : list (string * V)) : option V :=
  match d with
  | [] => None
  | (k', v) :: rest => if String.eqb k' k then Some v else dict_get k rest
  end.

Definition generate_module (fs : FileSystem) (s : Framework) (module_name : string)
    : option string :=
  let generators := default [] (code_generators (config s)) in
  match dict_get module_name generators with
  | None => None
  | Some generator_config =>
      let template_name := default "hal_implementation" (template generator_config) in
      match templates s !! template_name with
      | None => None
      | Some template =>
          let specs :=
            _extract_specifications fs s (default [] (traceability_ids generator_config)) in
          let generated_code := generate template generator_config specs in
          Some generated_code
      end
  end.

Definition get_available_generators (s : Framework) : list string :=
  (default [] (code_generators (config s))).*1.

Definition add_custom_template (name : string) (t : CodeTemplate) : M unit :=
  fun st =>
    let s := self st in
    (tt, mkPyState (mkFramework (config_path s) (config s) (docs_dir s) (validation_issues s)
                      (<[name := t]> (templates s)))
                   (heap st)).

(** ** Runs of a Framework

    The states a program can bring a Framework to: construction, then
    calls of the public methods, each against the file system of its
    moment.  [generate_module] and [get_available_generators] change
    nothing, so they add no state. *)
Inductive reachable : PyState -> Prop :=
| reach_init config_path read h st :
    __init__ config_path read h = Ok st -> reachable st
| reach_validate_all fs blocking st :
    reachable st -> reachable (validate_all fs blocking st).2
| reach_add_custom_template name t st :
    reachable st -> reachable (add_custom_template name t st).2.

(** ** Specification-side notions *)

(** The lines of a document as the extractor sees them. *)
Definition lines_of (content : string) : list string := Str.split "\n" content.

(** The lines numbered from [lo] to [hi] inclusive, the first line of
    [lines] carrying the number [k]. *)
Fixpoint numbered_between (k : Z) (lines : list string) (lo hi : Z) : list string :=
  match lines with
  | [] => []
  | x :: rest =>
      (if (lo <=? k) && (k <=? hi) then [x] else []) ++ numbered_between (k + 1) rest lo hi
  end.

(** The window around line [n] (lines numbered from 1): [before] lines
    before through [after] lines after, clamped to the file, as one text. *)
Definition window (lines : list string) (n : Z) (before after : Z) : string :=
  Str.join "\n" (numbered_between 1 lines (n - before) (n + after)).

(** The number of the first line containing [trace_id], from [k] on. *)
Fixpoint first_line_with (trace_id : string) (k : Z) (lines : list string) : option Z :=
  match lines with
  | [] => None
  | x :: rest => if Str.contains trace_id x then Some k else first_line_with trace_id (k + 1) rest
  end.

(** The windows one document contributes for one ID. *)
Definition contribution (trace_id content : string) : list string :=
  match first_line_with trace_id 1 (lines_of content) with
  | Some n => [window (lines_of content) n 2 4]
  | None => []
  end.

(** Every traceability-ID occurrence of the documentation tree, in scan order. *)
Definition tree_ids (fs : FileSystem) (s : Framework) : list string :=
  concat (map (fun doc_file => Re.findall_ids doc_file.2) (glob fs (docs_dir s) "*.md")).

(** The issue list the engine holds in a state. *)
Definition issues_of (st : PyState) : list ValidationIssue :=
  default [] (heap st !! validation_issues (self st)).

Definition configured_targets (s : Framework) : list string :=
  default [] (cross_reference_targets
    (default (mkValidationRules None None) (validation_rules (config s)))).

Definition has_category (c : string) (issue : ValidationIssue) : bool :=
  String.eqb (category issue) c.

Definition is_issue (sev cat msg : string) (issue : ValidationIssue) : bool :=
  String.eqb (severity issue) sev && String.eqb (category issue) cat
  && String.eqb (message issue) msg.

(** How many elements of a list satisfy a test. *)
Fixpoint count {A} (p : A -> bool) (l : list A) : nat :=
  match l with
  | [] => 0%nat
  | x :: rest => ((if p x then 1 else 0) + count p rest)%nat
  end.

(** The duplicates the scan records for a sequence of ID occurrences. *)
Definition duplicates (ids : list string) : list string :=
  (fold_left scan_id ids (∅, [])).2.

(** Whether a configured target is absent under the documentation root. *)
Definition absent (fs : FileSystem) (s : Framework) (target : string) : bool :=
  negb (path_exists fs (path_join (docs_dir s) target)).

(** All the issues one validation run collects. *)
Definition collected (fs : FileSystem) (s : Framework) : list ValidationIssue :=
  map duplicate_issue (duplicates (tree_ids fs s))
  ++ map missing_issue (filter (fun t => absent fs s t = true) (configured_targets s)).

(** [self.validation_issues.extend(xs)], the net effect of appending the
    elements of [xs] one by one. *)
Definition append_all (xs : list ValidationIssue) (st : PyState) : PyState :=
  mkPyState (self st)
            (alter (fun l => l ++ xs) (validation_issues (self st)) (heap st)).

(** ** A sample project *)

Module Sample.

(** Seventeen lines separated the way the extractor separates them; the
    traceability ID sits on line 10. *)
Definition requirements : string :=
  "l1\nl2\nl3\nl4\nl5\nl6\nl7\nl8\nl9\nl10 T1-REQ-001\nl11\nl12\nl13\nl14\nl15\nl16\nl17".

(** A document whose lines end in newline characters. *)
Definition design : string :=
  "# Design
intro
T2-DES-007 controller
details
more
end of file".

Definition notes : string := "T3-SAF-001 twice: T3-SAF-001, once: T3-SAF-002".

Definition docs : list (string * string) :=
  [("docs/requirements.md", requirements); ("docs/notes.md", notes)].

Definition fs : FileSystem :=
  mkFileSystem
    (fun d p => if String.eqb d "docs" && String.eqb p "*.md" then docs else [])
    (fun p => String.eqb p "docs/requirements.md").

(** The same tree with more files outside [docs]. *)
Definition fs_elsewhere : FileSystem :=
  mkFileSystem
    (fun d p =>
       if String.eqb d "docs" && String.eqb p "*.md" then docs
       else [("src/readme.md", "T1-REQ-001 T1-REQ-001")])
    (fun p => String.eqb p "docs/requirements.md").

Definition fs_design : FileSystem :=
  mkFileSystem
    (fun d p => if String.eqb d "docs" && String.eqb p "*.md" then [("docs/design.md", design)] else [])
    (fun _ => false).

Definition fs_clean : FileSystem :=
  mkFileSystem
    (fun d p =>
       if String.eqb d "docs" && String.eqb p "*.md"
       then [("docs/requirements.md", requirements)] else [])
    (fun _ => true).

Definition hal_entry : GeneratorConfig :=
  mkGeneratorConfig None (Some "FooImpl") (Some "BarTrait") None (Some ["T1-REQ-001"]).

Definition control_entry : GeneratorConfig :=
  mkGeneratorConfig (Some "control_system") (Some "AttitudeController") None None None.

Definition unknown_entry : GeneratorConfig :=
  mkGeneratorConfig (Some "state_machine") (Some "Fsm") None None None.

Definition cfg : Config :=
  mkConfig "sample"
    None
    (Some [("sensor-hal", hal_entry);
           ("attitude-controller", control_entry);
           ("fsm", unknown_entry)])
    (Some (mkValidationRules
             (Some ["requirements.md"; "safety.md"; "safety.md"; "glossary.md"]) None)).

Definition st : PyState := init_attributes "tools/project-config.json" cfg ∅.

End Sample.

(** ** Console output of the validation summary *)

(** [str(n)] for a length. *)
Definition str_of_nat (n : nat) : string := NilZero.string_of_uint (Nat.to_uint n).

(** The line printed for one issue. *)
Definition issue_line (issue : ValidationIssue) : string :=
  let severity_icon := if String.eqb (severity issue) "error" then "❌" else "⚠️" in
  "  " +:+ severity_icon +:+ " " +:+ category issue +:+ ": " +:+ message issue.

(** [_print_validation_summary]: the lines it prints, in order. *)
Definition _print_validation_summary (st : PyState) : list string :=
  let validation_issues := issues_of st in
  let errors := filter (fun i => severity i = "error") validation_issues in
  let warnings := filter (fun i => severity i = "warning") validation_issues in
  match validation_issues with
  | [] =>
      ["✅ All systematic engineering requirements validated";
       "💡 Health Score: 100%"]
  | _ =>
      ("⚠️ Found " +:+ str_of_nat (length errors) +:+ " errors, "
       +:+ str_of_nat (length warnings) +:+ " warnings")
      :: map issue_line (take 5 validation_issues)
  end.

(** ** Configuration objects without [project_name]

    [json.load] also returns objects that lack the key [project_name],
    and the constructor accepts them.  [validate_all] subscripts the key
    in its first statement, before it touches the issue list, and raises
    [KeyError] on such an object; nothing else in the engine reads the
    key.  A [Loaded] is a configuration object of either kind: [typed]
    holds its other keys, and its [project_name] when it has one. *)
Record Loaded := mkLoaded {
  typed : Config;
  has_project_name : bool
}.

(** How a call of [validate_all] ends, exceptions included. *)
Inductive CallEnd :=
| CallReturned (issues : loc)
| CallExited (status : Z)
| CallRaised (exn : string).

(** [validate_all] called on a Framework whose configuration object has
    the key [project_name] ([named]) or lacks it. *)
Definition validate_all_call (fs : FileSystem) (blocking named : bool) (st : PyState)
    : CallEnd * PyState :=
  if named then
    let '(out, st') := validate_all fs blocking st in
    (match out with
     | Returned issues => CallReturned issues
     | Exited status => CallExited status
     end, st')
  else (CallRaised "KeyError: 'project_name'", st).

(** [SystematicEngineeringFramework(config_path)] on an object of either
    kind: the Framework, and whether its configuration has
    [project_name]. *)
Definition construct (config_path : string) (read : option Loaded)
    (h : gmap loc (list ValidationIssue)) : Result (PyState * bool) :=
  match __init__ config_path (typed <$> read) h with
  | Raise e => Raise e
  | Ok framework => Ok (framework, default true (has_project_name <$> read))
  end.

(** ** The command line *)

(** How a run of a script ends: by reaching its end, by [sys.exit], or by
    an exception nobody catches. *)
Inductive ProcessEnd :=
| Finished
| SysExit (status : Z)
| Uncaught (exn : string).

(** [main] of [systematic_engineering_core.py] on [sys.argv = argv].
    [read] is what loading ["tools/project-config.json"] gives. *)
Definition main (argv : list string) (fs : FileSystem) (read : option Loaded)
    (h : gmap loc (list ValidationIssue)) : ProcessEnd :=
  if (length argv <? 2)%nat then Finished
  else
    let config_path := "tools/project-config.json" in
    if negb (path_exists fs config_path) then Finished
    else
      match construct config_path read h with
      | Raise e => Uncaught e
      | Ok (framework, named) =>
          let command := default EmptyString (argv !! 1%nat) in
          if String.eqb command "validate" then
            let blocking := bool_decide ("--blocking" ∈ argv) in
            match (validate_all_call fs blocking named framework).1 with
            | CallExited status => SysExit status
            | CallRaised e => Uncaught e
            | CallReturned _ => Finished
            end
          else if String.eqb command "generate" then
            if (length argv <? 3)%nat then Finished
            else
              let module_name := default EmptyString (argv !! 2%nat) in
              let _ := generate_module fs (self framework) module_name in
              Finished
          else if String.eqb command "list-generators" then
            let generators := get_available_generators (self framework) in
            Finished
          else Finished
      end.

(** [flight-controller-demo.py], run as a script: [sys.exit(main())].
    The body of its [main] is one [try] block: an exception raised by the
    construction or by [validate_all] is caught by [except Exception] and
    makes [main] return 1; at its end [main] returns 0.  A [SystemExit]
    is no [Exception] and would pass through.  [generate_module] raises
    nothing on readable documents. *)
Definition flight_controller_demo (fs : FileSystem) (read : option Loaded)
    (h : gmap loc (list ValidationIssue)) : ProcessEnd :=
  let config_path := "tools/example-flight-controller-config.json" in
  match construct config_path read h with
  | Raise e => SysExit 1
  | Ok (framework, named) =>
      let generators := get_available_generators (self framework) in
      let result := generate_module fs (self framework) "attitude-controller" in
      match (validate_all_call fs false named framework).1 with
      | CallRaised e => SysExit 1
      | CallExited status => SysExit status
      | CallReturned issues => SysExit 0
      end
  end.

(** ** More specification-side notions *)

(** The occurrences of a scan that repeat an ID seen earlier, in scan
    order; [before] holds the occurrences already passed. *)
Fixpoint later_occurrences (before ids : list string) : list string :=
  match ids with
  | [] => []
  | id_str :: rest =>
      (if bool_decide (id_str ∈ before) then [id_str] else [])
      ++ later_occurrences (before ++ [id_str]) rest
  end.

(** The newline character, and the lines of a text as an editor shows
    them. *)
Definition newline : string := String "010" EmptyString.

Definition text_lines (content : string) : list string := Str.split newline content.

(** Whether every character of a string is in a class. *)
Fixpoint all_chars (p : ascii -> bool) (s : string) : bool :=
  match s with
  | EmptyString => true
  | String c rest => p c && all_chars p rest
  end.

(** The form of a traceability ID: [T], decimal digits, a dash, capital
    letters [A] to [Z], a dash, decimal digits, each run non-empty. *)
Definition id_shaped (x : string) : Prop :=
  exists tier cat num,
    x = "T" +:+ tier +:+ "-" +:+ cat +:+ "-" +:+ num
    /\ tier <> EmptyString /\ cat <> EmptyString /\ num <> EmptyString
    /\ Re.digits_only tier = true
    /\ all_chars Re.is_upper cat = true
    /\ Re.digits_only num = true.

(** ** More sample data *)

Module Cases.

(** A configuration that shares with [Sample.cfg] its cross-reference
    targets and nothing else. *)
Definition cfg_other : Config :=
  mkConfig "other"
    (Some (mkTraceabilitySchema (Some "{category}/{number}")))
    None
    (Some (mkValidationRules
             (Some ["requirements.md"; "safety.md"; "safety.md"; "glossary.md"])
             (Some ["Derived From"; "Rationale"]))).

Definition st_other : PyState :=
  init_attributes "other.json" cfg_other {[ 7%positive := [missing_issue "old.md"] ]}.

(** A template of a project's own. *)
Definition banner : CodeTemplate :=
  mkCodeTemplate (fun config specs =>
    "// module " +:+ default "unnamed" (target_struct config)).

Definition fs_config : FileSystem :=
  mkFileSystem (glob Sample.fs)
    (fun p => String.eqb p "tools/project-config.json").

(** Twenty lines ending in newline characters; the traceability ID sits
    on line 10. *)
Definition handbook : string :=
  "line 1
line 2
line 3
line 4
line 5
line 6
line 7
line 8
line 9
line 10 T1-REQ-001
line 11
line 12
line 13
line 14
line 15
line 16
line 17
line 18
line 19
line 20".

Definition fs_handbook : FileSystem :=
  mkFileSystem
    (fun d p =>
       if String.eqb d "docs" && String.eqb p "*.md"
       then [("docs/handbook.md", handbook)] else [])
    (fun _ => true).

(** A tree whose one ID is written with Arabic-Indic digits and occurs
    twice. *)
Definition fs_arabic : FileSystem :=
  mkFileSystem
    (fun d p =>
       if String.eqb d "docs" && String.eqb p "*.md"
       then [("docs/a.md", "see T١-REQ-٢"); ("docs/b.md", "again T١-REQ-٢ and T1-REQ-2")]
       else [])
    (fun _ => true).

(** A tree with more than five issues. *)
Definition fs_many : FileSystem :=
  mkFileSystem
    (fun d p =>
       if String.eqb d "docs" && String.eqb p "*.md"
       then [("docs/a.md", "T1-A-1 T1-A-1 T2-B-2 T1-A-1"); ("docs/b.md", "T2-B-2 T1-A-1 T2-B-2")]
       else [])
    (fun _ => false).


(** The sample configuration as loaded, and the same object without the
    key [project_name]. *)
Definition named : Loaded := mkLoaded Sample.cfg true.
Definition unnamed : Loaded := mkLoaded Sample.cfg false.

End Cases.

(** * Properties *)

(** ** Strings *)

Example split_sample :
  Str.split "\n" "a\nb\n\nc\n" = ["a"; "b"; EmptyString; "c"; EmptyString].
Proof. reflexivity. Qed.

Example findall_sample :
  Re.findall_ids "see T1-REQ-001, T22-AB-7x and T1-REQ-0012T3-X-1 T-A-1 T1-a-1 T1-REQ-"
  = ["T1-REQ-001"; "T22-AB-7"; "T1-REQ-0012"; "T3-X-1"].
Proof. reflexivity. Qed.

Section Strings.
Implicit Types (s p sub sep a b x : string).
Local Arguments String.append : simpl nomatch.

Lemma append_nil_r s : s +:+ EmptyString = s.
Proof. induction s as [|c s IH]; simpl; congruence. Qed.

Lemma append_assoc a b s : (a +:+ b) +:+ s = a +:+ (b +:+ s).
Proof. induction a as [|c a IH]; simpl; congruence. Qed.

Lemma append_inj_r p a b : p +:+ a = p +:+ b -> a = b.
Proof. induction p as [|c p IH]; simpl; [done | intros [= H]; auto]. Qed.

Lemma startswith_spec p s : Str.startswith p s = true <-> exists b, s = p +:+ b.
Proof.
  revert s. induction p as [|c p IH]; intros s; simpl.
  - split; [intros _; by exists s | done].
  - destruct s as [|d s]; simpl.
    + split; [done | intros [b Hb]; discriminate].
    + destruct (Ascii.eqb_spec c d) as [->|Hne].
      * rewrite IH. split; intros [b Hb]; exists b; [by rewrite Hb | by injection Hb].
      * split; [done | intros [b [= Hcd _]]; done].
Qed.

Lemma contains_unfold sub s :
  Str.contains sub s =
  Str.startswith sub s ||
  match s with EmptyString => false | String _ s' => Str.contains sub s' end.
Proof. by destruct s. Qed.

Lemma contains_spec sub s :
  Str.contains sub s = true <-> exists a b, s = a +:+ sub +:+ b.
Proof.
  induction s as [|c s IH]; rewrite contains_unfold, orb_true_iff, startswith_spec.
  - split.
    + intros [[b Hb]|?]; [|done]. by exists EmptyString, b.
    + intros (a & b & Hab). left. destruct a; [by exists b | discriminate].
  - rewrite IH. split.
    + intros [[b Hb]|(a & b & Hab)].
      * by exists EmptyString, b.
      * exists (String c a), b. simpl. by rewrite Hab.
    + intros (a & b & Hab). destruct a as [|d a]; simpl in Hab.
      * left. by exists b.
      * right. injection Hab as _ Hab. by exists a, b.
Qed.

Lemma contains_app_r sub a s : Str.contains sub s = true -> Str.contains sub (a +:+ s) = true.
Proof.
  rewrite !contains_spec. intros (u & v & ->). exists (a +:+ u), v.
  by rewrite append_assoc.
Qed.

Lemma contains_trans sub x s :
  Str.contains sub x = true -> Str.contains x s = true -> Str.contains sub s = true.
Proof.
  rewrite !contains_spec. intros (u & v & ->) (a & b & ->).
  exists (a +:+ u), (v +:+ b). by rewrite !append_assoc.
Qed.

(** The pieces [split] returns are pieces of the text, and the first one
    starts it. *)
Lemma split_go_pieces sep s k :
  exists h t, Str.split_go sep k s = h :: t
    /\ (k = 0%nat -> exists b, s = h +:+ b)
    /\ (forall x, x ∈ h :: t -> Str.contains x s = true).
Proof.
  revert k. induction s as [|c s IH]; intros k.
  - exists EmptyString, []. simpl. split; [done|]. split.
    + intros _. by exists EmptyString.
    + intros x ->%list_elem_of_singleton. done.
  - cbn [Str.split_go]. destruct k as [|k].
    + destruct (Str.startswith sep (String c s)) eqn:Hsep.
      * destruct (IH (String.length sep - 1)%nat) as (h & t & Heq & _ & Hsub).
        exists EmptyString, (h :: t). rewrite Heq. split; [done|]. split.
        -- intros _. by exists (String c s).
        -- intros x [->|Hx]%elem_of_cons; [done|].
           apply (contains_app_r _ (String c EmptyString)). auto.
      * destruct (IH 0%nat) as (h & t & Heq & Hpre & Hsub). rewrite Heq.
        destruct (Hpre eq_refl) as [b Hb].
        exists (String c h), t. split; [done|]. split.
        -- intros _. exists b. simpl. by rewrite Hb.
        -- intros x [->|Hx]%elem_of_cons.
           ++ apply contains_spec. exists EmptyString, b. simpl. by rewrite Hb.
           ++ apply (contains_app_r _ (String c EmptyString)). apply Hsub. by right.
    + destruct (IH k) as (h & t & Heq & _ & Hsub). exists h, t.
      split; [done|]. split; [done|].
      intros x Hx. apply (contains_app_r _ (String c EmptyString)). auto.
Qed.

Lemma split_pieces sep s x : x ∈ Str.split sep s -> Str.contains x s = true.
Proof.
  unfold Str.split. destruct (split_go_pieces sep s 0) as (h & t & -> & _ & Hsub). auto.
Qed.

End Strings.

(** ** Counting *)

Section Counting.
Context {A B : Type}.
Implicit Types (p q : A -> bool) (l : list A).

Lemma count_app p l1 l2 : count p (l1 ++ l2) = (count p l1 + count p l2)%nat.
Proof. induction l1 as [|x l1 IH]; simpl; [done | rewrite IH; lia]. Qed.

Lemma count_map (f : B -> A) p (l : list B) : count p (map f l) = count (fun y => p (f y)) l.
Proof. induction l as [|x l IH]; simpl; [done | by rewrite IH]. Qed.

Lemma count_ext p q l : (forall x, p x = q x) -> count p l = count q l.
Proof. intros H. induction l as [|x l IH]; simpl; [done | by rewrite H, IH]. Qed.

Lemma count_none p l : (forall x, x ∈ l -> p x = false) -> count p l = 0%nat.
Proof.
  induction l as [|x l IH]; intros H; simpl; [done|].
  rewrite (H x), IH; [done | | by left]. intros y Hy. apply H. by right.
Qed.

Lemma count_filter p q l :
  count p (filter (fun x => q x = true) l) = count (fun x => q x && p x) l.
Proof.
  induction l as [|x l IH]; simpl; [done|].
  rewrite filter_cons. destruct (decide (q x = true)) as [Hq|Hq].
  - simpl. by rewrite IH, Hq.
  - apply not_true_is_false in Hq. by rewrite IH, Hq.
Qed.

End Counting.

(** ** The extraction window *)

Lemma numbered_between_slice (lines : list string) k lo hi :
  numbered_between k lines lo hi
  = Str.slice lines (Z.max 0 (lo - k)) (Z.min (Str.len lines) (hi - k + 1)).
Proof.
  revert k. unfold Str.slice, Str.len.
  induction lines as [|x rest IH]; intros k.
  - by rewrite drop_nil, take_nil.
  - cbn [numbered_between length]. rewrite IH.
    destruct (Z.leb_spec lo k) as [Hlo|Hlo]; cbn [andb].
    + replace (Z.to_nat (Z.max 0 (lo - k))) with 0%nat by lia.
      replace (Z.to_nat (Z.max 0 (lo - (k + 1)))) with 0%nat by lia.
      rewrite !drop_0.
      destruct (Z.leb_spec k hi) as [Hhi|Hhi].
      * replace (Z.to_nat (Z.min (Z.of_nat (S (length rest))) (hi - k + 1) - Z.max 0 (lo - k)))
          with (S (Z.to_nat (Z.min (Z.of_nat (length rest)) (hi - (k + 1) + 1) - Z.max 0 (lo - (k + 1)))))
          by lia.
        done.
      * replace (Z.to_nat (Z.min (Z.of_nat (S (length rest))) (hi - k + 1) - Z.max 0 (lo - k)))
          with 0%nat by lia.
        replace (Z.to_nat (Z.min (Z.of_nat (length rest)) (hi - (k + 1) + 1) - Z.max 0 (lo - (k + 1))))
          with 0%nat by lia.
        done.
    + replace (Z.to_nat (Z.max 0 (lo - k)))
        with (S (Z.to_nat (Z.max 0 (lo - (k + 1))))) by lia.
      replace (Z.to_nat (Z.min (Z.of_nat (S (length rest))) (hi - k + 1) - Z.max 0 (lo - k)))
        with (Z.to_nat (Z.min (Z.of_nat (length rest)) (hi - (k + 1) + 1) - Z.max 0 (lo - (k + 1))))
        by lia.
      done.
Qed.

(** The line loop appends the window around the first matching line, and
    nothing when no line matches. *)
Lemma scan_lines_spec trace_id lines i rest specs :
  scan_lines trace_id lines i rest specs
  = specs ++ match first_line_with trace_id (i + 1) rest with
             | Some n => [window lines n 2 4]
             | None => []
             end.
Proof.
  revert i. induction rest as [|line rest IH]; intros i; cbn [scan_lines first_line_with].
  - by rewrite app_nil_r.
  - destruct (Str.contains trace_id line).
    + unfold window. rewrite numbered_between_slice.
      do 4 f_equal; lia.
    + apply IH.
Qed.

Lemma first_line_with_contains trace_id k lines n :
  first_line_with trace_id k lines = Some n ->
  exists line, line ∈ lines /\ Str.contains trace_id line = true.
Proof.
  revert k. induction lines as [|x rest IH]; intros k; cbn [first_line_with]; [done|].
  destruct (Str.contains trace_id x) eqn:Hx.
  - intros _. exists x. split; [by left | done].
  - intros (line & Hin & Hc)%IH. exists line. split; [by right | done].
Qed.

Lemma extract_id_spec content specs trace_id :
  extract_id content specs trace_id
  = specs ++ match first_line_with trace_id 1 (lines_of content) with
             | Some n => [window (lines_of content) n 2 4]
             | None => []
             end.
Proof.
  unfold extract_id. destruct (Str.contains trace_id content) eqn:Hc.
  - apply (scan_lines_spec trace_id _ 0).
  - destruct (first_line_with trace_id 1 (lines_of content)) as [n|] eqn:Hn.
    + apply first_line_with_contains in Hn as (line & Hin & Hline).
      apply split_pieces in Hin.
      by rewrite (contains_trans _ _ _ Hline Hin) in Hc.
    + by rewrite app_nil_r.
Qed.

Lemma contribution_absent trace_id content :
  Str.contains trace_id content = false -> contribution trace_id content = [].
Proof.
  intros Hc. unfold contribution.
  destruct (first_line_with trace_id 1 (lines_of content)) as [n|] eqn:Hn; [|done].
  apply first_line_with_contains in Hn as (line & Hin & Hline).
  apply split_pieces in Hin.
  by rewrite (contains_trans _ _ _ Hline Hin) in Hc.
Qed.

Lemma extract_ids_spec content ids specs :
  fold_left (extract_id content) ids specs
  = specs ++ concat (map (fun trace_id => contribution trace_id content) ids).
Proof.
  revert specs. induction ids as [|trace_id ids IH]; intros specs; simpl.
  - by rewrite app_nil_r.
  - rewrite IH, extract_id_spec. by rewrite <- app_assoc.
Qed.

Lemma extract_docs_spec (docs : list (string * string)) ids specs :
  fold_left
    (fun specs doc_file => fold_left (extract_id doc_file.2) ids specs) docs specs
  = specs ++ concat (map (fun doc_file =>
               concat (map (fun trace_id => contribution trace_id doc_file.2) ids)) docs).
Proof.
  revert specs. induction docs as [|doc docs IH]; intros specs; simpl.
  - by rewrite app_nil_r.
  - rewrite IH, extract_ids_spec. by rewrite <- app_assoc.
Qed.

(** Extraction is the concatenation, document by document and ID by ID,
    of the contributions. *)
Lemma extract_specifications_spec fs s ids :
  _extract_specifications fs s ids
  = concat (map (fun doc_file =>
      concat (map (fun trace_id => contribution trace_id doc_file.2) ids))
      (glob fs (docs_dir s) "*.md")).
Proof. unfold _extract_specifications. by rewrite extract_docs_spec. Qed.

(** For a single ID: one contribution per document, in scan order. *)
Lemma extract_one_spec fs s trace_id :
  _extract_specifications fs s [trace_id]
  = concat (map (fun doc_file => contribution trace_id doc_file.2)
                (glob fs (docs_dir s) "*.md")).
Proof.
  rewrite extract_specifications_spec. f_equal. apply map_ext.
  intros doc. simpl. apply app_nil_r.
Qed.

Lemma no_contribution trace_id (docs : list (string * string)) :
  Forall (fun d => Str.contains trace_id d.2 = false) docs ->
  concat (map (fun doc_file => contribution trace_id doc_file.2) docs) = [].
Proof.
  induction 1 as [|d docs Hd _ IH]; simpl; [done|].
  by rewrite IH, contribution_absent.
Qed.

(** X27. In terms of the pieces the extractor splits a document into,
    at each occurrence of the two-character text backslash, [n]: for an
    ID that is in exactly one document of the tree, the first piece
    containing it being piece [n] (numbered from 1), the extractor
    returns exactly one window, made of the pieces [n-2] through [n+4]
    inclusive, clamped to the document; for an ID that is in no document
    it returns no window. *)
Theorem extract_window_first_match :
  forall fs s trace_id,
    (forall pre doc post n,
        glob fs (docs_dir s) "*.md" = pre ++ doc :: post ->
        Forall (fun d => Str.contains trace_id d.2 = false) (pre ++ post) ->
        first_line_with trace_id 1 (lines_of doc.2) = Some n ->
        _extract_specifications fs s [trace_id] = [window (lines_of doc.2) n 2 4])
    /\ (Forall (fun d => Str.contains trace_id d.2 = false) (glob fs (docs_dir s) "*.md") ->
        _extract_specifications fs s [trace_id] = []).
Proof.
  intros fs s trace_id. split.
  - intros pre doc post n Hglob [Hpre Hpost]%Forall_app Hn.
    rewrite extract_one_spec, Hglob, map_app, concat_app. cbn [map concat].
    rewrite (no_contribution _ _ Hpre), (no_contribution _ _ Hpost).
    unfold contribution. by rewrite Hn.
  - intros Hnone. rewrite extract_one_spec. by apply no_contribution.
Qed.

(** On its own pieces the extractor keeps two pieces before the match and
    four after it: the slice [lines[start:end]] stops before [i + 5]. *)
Lemma extract_window_first_match_witness :
  _extract_specifications Sample.fs (self Sample.st) ["T1-REQ-001"]
  = ["l8\nl9\nl10 T1-REQ-001\nl11\nl12\nl13\nl14"]
  /\ _extract_specifications Sample.fs (self Sample.st) ["T9-NONE-000"] = [].
Proof.
  destruct (extract_window_first_match Sample.fs (self Sample.st) "T1-REQ-001") as [H1 _].
  destruct (extract_window_first_match Sample.fs (self Sample.st) "T9-NONE-000") as [_ H2].
  split.
  - apply (H1 [] ("docs/requirements.md", Sample.requirements)
                [("docs/notes.md", Sample.notes)] 10).
    + reflexivity.
    + repeat constructor.
    + reflexivity.
  - apply H2. repeat constructor.
Defined.

(** A document whose lines end in newline characters is one line to the
    extractor: the window is the whole text. *)
Example extract_newline_document :
  _extract_specifications Sample.fs_design (self Sample.st) ["T2-DES-007"]
  = [Sample.design].
Proof. reflexivity. Qed.

(** C1. The code breaks the claim on a document of twenty lines that end
    in newline characters, with the ID on line 10 and nowhere else in the
    tree: the claim asks for one window holding the lines 8 through 15;
    the extractor, which splits the text on the two characters backslash
    and [n], finds a single piece and returns the whole document. *)
Theorem extract_window_on_text_lines :
  glob Cases.fs_handbook (docs_dir (self Sample.st)) "*.md"
    = [("docs/handbook.md", Cases.handbook)]
  /\ length (text_lines Cases.handbook) = 20%nat
  /\ first_line_with "T1-REQ-001" 1 (text_lines Cases.handbook) = Some 10
  /\ Str.join newline (numbered_between 1 (text_lines Cases.handbook) (10 - 2) (10 + 5))
     = "line 8
line 9
line 10 T1-REQ-001
line 11
line 12
line 13
line 14
line 15"
  /\ lines_of Cases.handbook = [Cases.handbook]
  /\ _extract_specifications Cases.fs_handbook (self Sample.st) ["T1-REQ-001"]
     = [Cases.handbook]
  /\ _extract_specifications Cases.fs_handbook (self Sample.st) ["T1-REQ-001"]
     <> [Str.join newline
           (numbered_between 1 (text_lines Cases.handbook) (10 - 2) (10 + 5))].
Proof. repeat split; try reflexivity. vm_compute. discriminate. Qed.

(** ** The validation run *)

Lemma append_all_nil st : append_all [] st = st.
Proof.
  destruct st as [s h]. unfold append_all. cbn. f_equal.
  apply alter_id. intros l _. apply app_nil_r.
Qed.

Lemma append_all_app xs ys st :
  append_all ys (append_all xs st) = append_all (xs ++ ys) st.
Proof.
  unfold append_all. cbn. f_equal. rewrite alter_alter_eq.
  apply alter_ext. intros l _. cbn. by rewrite app_assoc.
Qed.

Lemma append_issue_run issue st : append_issue issue st = (tt, append_all [issue] st).
Proof. reflexivity. Qed.

Lemma for_each_append {A} (f : A -> ValidationIssue) (xs : list A) st :
  for_each xs (fun x => append_issue (f x)) st = (tt, append_all (map f xs) st).
Proof.
  revert st. induction xs as [|x xs IH]; intros st; cbn [for_each map].
  - by rewrite append_all_nil.
  - unfold mbind, M_bind. rewrite append_issue_run. cbv beta iota.
    rewrite IH. f_equal. by rewrite append_all_app.
Qed.

Lemma for_each_missing fs (targets : list string) st :
  for_each targets (fun target =>
    s ← get_self;
    if negb (path_exists fs (path_join (docs_dir s) target))
    then append_issue (missing_issue target)
    else mret tt) st
  = (tt, append_all
           (map missing_issue (filter (fun t => absent fs (self st) t = true) targets)) st).
Proof.
  revert st. induction targets as [|t targets IH]; intros st; cbn [for_each].
  - cbn. by rewrite append_all_nil.
  - rewrite filter_cons. unfold mbind at 1, M_bind at 1.
    unfold mbind at 1, M_bind at 1, get_self at 1.
    fold (absent fs (self st) t).
    destruct (decide (absent fs (self st) t = true)) as [Ha|Ha].
    + rewrite Ha, append_issue_run. cbv beta iota.
      rewrite IH. cbn [map]. f_equal. by rewrite append_all_app.
    + apply not_true_is_false in Ha. rewrite Ha. unfold mret, M_ret. by rewrite IH.
Qed.

Lemma scan_docs_concat (docs : list (string * string)) acc :
  fold_left scan_doc docs acc
  = fold_left scan_id (concat (map (fun doc_file => Re.findall_ids doc_file.2) docs)) acc.
Proof.
  revert acc. induction docs as [|d docs IH]; intros acc; cbn; [done|].
  by rewrite fold_left_app, IH.
Qed.

Lemma validate_traceability_ids_spec fs st :
  _validate_traceability_ids fs st
  = (tt, append_all (map duplicate_issue (duplicates (tree_ids fs (self st)))) st).
Proof.
  unfold _validate_traceability_ids, mbind, M_bind, get_self.
  rewrite scan_docs_concat. unfold duplicates, tree_ids.
  destruct (fold_left scan_id _ _) as [found_ids duplicate_ids]. cbn.
  apply for_each_append.
Qed.

Lemma validate_cross_references_spec fs st :
  _validate_cross_references fs st
  = (tt, append_all
           (map missing_issue
              (filter (fun t => absent fs (self st) t = true) (configured_targets (self st))))
           st).
Proof.
  unfold _validate_cross_references, mbind, M_bind, get_self. cbn.
  apply for_each_missing.
Qed.

Lemma self_append_all xs st : self (append_all xs st) = self st.
Proof. reflexivity. Qed.

(** What a run of [validate_all] does: a new list object receives the
    collected issues and becomes the engine's issue list; every other
    list object is left as it was. *)
Lemma validate_all_spec fs blocking st :
  let l := fresh (dom (heap st)) in
  let s := self st in
  let issues := collected fs s in
  validate_all fs blocking st
  = (if blocking && existsb is_error issues then Exited 1 else Returned l,
     mkPyState (mkFramework (config_path s) (config s) (docs_dir s) l (templates s))
               (<[l := issues]> (heap st))).
Proof.
  intros l s issues. unfold validate_all, mbind, M_bind.
  unfold new_list, set_validation_issues. cbv beta iota zeta.
  fold l. cbn [self heap].
  set (s1 := mkFramework _ _ _ _ _).
  set (st1 := mkPyState s1 _).
  rewrite validate_traceability_ids_spec. cbv beta iota.
  rewrite validate_cross_references_spec. cbv beta iota.
  rewrite append_all_app, !self_append_all.
  change (map duplicate_issue _ ++ map missing_issue _) with issues.
  unfold _validate_derivations, mbind, M_bind, get_self, read_issues, mret, M_ret.
  cbv beta iota zeta. rewrite !self_append_all.
  unfold append_all, st1. cbn [self heap validation_issues s1].
  rewrite alter_insert_eq, lookup_insert_eq. cbn [default app].
  change (id issues) with issues.
  by destruct (blocking && existsb is_error issues).
Qed.

Lemma issues_after_validate_all fs blocking st :
  issues_of (validate_all fs blocking st).2 = collected fs (self st).
Proof.
  rewrite validate_all_spec. unfold issues_of. cbn. by rewrite lookup_insert_eq.
Qed.

(** ** Duplicate detection *)

Lemma eqb_sym_string (x y : string) : String.eqb x y = String.eqb y x.
Proof. destruct (String.eqb_spec x y), (String.eqb_spec y x); congruence. Qed.

(** Scanning one more sequence of occurrences: an ID already seen adds
    each of its occurrences to the duplicates, a new one all but the first. *)
Lemma scan_ids_count (x : string) ids found_ids duplicate_ids :
  count (String.eqb x) (fold_left scan_id ids (found_ids, duplicate_ids)).2
  = (count (String.eqb x) duplicate_ids
     + (if decide (x ∈ found_ids) then count (String.eqb x) ids
        else count (String.eqb x) ids - 1))%nat.
Proof.
  revert found_ids duplicate_ids.
  induction ids as [|id_str ids IH]; intros F D; cbn [fold_left count snd].
  - case_decide; lia.
  - unfold scan_id at 2. destruct (decide (id_str ∈ F)) as [Hin|Hnin].
    + rewrite IH, count_app. cbn [count].
      destruct (String.eqb_spec x id_str) as [->|Hne];
        destruct (decide (_ ∈ F)) as [HF|HF]; try lia; done.
    + rewrite IH.
      assert (x ∈ {[id_str]} ∪ F <-> x = id_str \/ x ∈ F) as Hiff
        by (by rewrite elem_of_union, elem_of_singleton).
      destruct (String.eqb_spec x id_str) as [->|Hne];
        destruct (decide (_ ∈ F)) as [HF|HF], (decide (_ ∈ _ ∪ F)) as [HU|HU];
        try lia; tauto.
Qed.

Lemma duplicates_count (x : string) ids :
  count (String.eqb x) (duplicates ids) = (count (String.eqb x) ids - 1)%nat.
Proof.
  unfold duplicates. rewrite scan_ids_count. cbn [count].
  rewrite decide_False by set_solver. lia.
Qed.

Lemma NoDup_count (x : string) ids : NoDup ids -> (count (String.eqb x) ids <= 1)%nat.
Proof.
  induction 1 as [|y ids Hy _ IH]; cbn [count]; [lia|].
  destruct (String.eqb_spec x y) as [->|Hne]; [|lia].
  rewrite count_none; [lia|].
  intros z Hz. destruct (String.eqb_spec y z) as [->|]; done.
Qed.

Lemma count_zero_nil (l : list string) :
  (forall x, count (String.eqb x) l = 0%nat) -> l = [].
Proof.
  destruct l as [|y l]; [done|]. intros H. specialize (H y). cbn in H.
  rewrite String.eqb_refl in H. lia.
Qed.

Lemma NoDup_duplicates ids : NoDup ids -> duplicates ids = [].
Proof.
  intros Hnd. apply count_zero_nil. intros x.
  rewrite duplicates_count. pose proof (NoDup_count x ids Hnd). lia.
Qed.

(** ** Telling the issues apart *)

Lemma is_issue_duplicate sev cat dup_id x :
  is_issue sev cat ("Duplicate traceability ID: " +:+ x) (duplicate_issue dup_id)
  = String.eqb "error" sev && String.eqb "duplicate_id" cat && String.eqb x dup_id.
Proof.
  unfold is_issue, duplicate_issue. cbn [severity category message].
  f_equal.
  destruct (String.eqb_spec x dup_id) as [->|Hne].
  - apply String.eqb_refl.
  - apply String.eqb_neq. intros H%(inj (String.append _)). done.
Qed.

Lemma is_issue_missing sev cat target x :
  is_issue sev cat ("Referenced file missing: " +:+ x) (missing_issue target)
  = String.eqb "warning" sev && String.eqb "missing_file" cat && String.eqb x target.
Proof.
  unfold is_issue, missing_issue. cbn [severity category message].
  f_equal.
  destruct (String.eqb_spec x target) as [->|Hne].
  - apply String.eqb_refl.
  - apply String.eqb_neq. intros H%(inj (String.append _)). done.
Qed.

(** C3. A tree without duplicate ID occurrences yields no [duplicate_id]
    issue; an ID occurring exactly twice in the tree, wherever its two
    occurrences are, yields exactly one issue of severity [error] and
    category [duplicate_id] for it. *)
Theorem duplicate_id_issues :
  forall fs blocking st,
    (NoDup (tree_ids fs (self st)) ->
     count (has_category "duplicate_id") (issues_of (validate_all fs blocking st).2) = 0%nat)
    /\ (forall id_str,
          count (String.eqb id_str) (tree_ids fs (self st)) = 2%nat ->
          count (is_issue "error" "duplicate_id" ("Duplicate traceability ID: " +:+ id_str))
                (issues_of (validate_all fs blocking st).2) = 1%nat).
Proof.
  intros fs blocking st.
  rewrite issues_after_validate_all. unfold collected. split.
  - intros Hnd. rewrite (NoDup_duplicates _ Hnd). cbn [map app].
    rewrite count_map. by apply count_none.
  - intros id_str Htwice. rewrite count_app, !count_map.
    rewrite (count_ext _ (String.eqb id_str)).
    2:{ intros dup_id. by rewrite is_issue_duplicate. }
    rewrite duplicates_count, Htwice.
    rewrite count_none; [done|]. intros t _.
    unfold is_issue, missing_issue. done.
Qed.

Lemma duplicate_id_issues_witness :
  count (has_category "duplicate_id")
        (issues_of (validate_all Sample.fs_clean false Sample.st).2) = 0%nat
  /\ count (is_issue "error" "duplicate_id" "Duplicate traceability ID: T3-SAF-001")
           (issues_of (validate_all Sample.fs false Sample.st).2) = 1%nat.
Proof.
  destruct (duplicate_id_issues Sample.fs_clean false Sample.st) as [Hclean _].
  destruct (duplicate_id_issues Sample.fs false Sample.st) as [_ Htwice].
  split.
  - apply Hclean. vm_compute. apply NoDup_singleton.
  - apply (Htwice "T3-SAF-001"). reflexivity.
Defined.

(** The pattern's digits are the decimal digits of Unicode: an ID written
    with Arabic-Indic digits is found, and its second occurrence
    reported. *)
Example duplicate_id_issues_arabic :
  tree_ids Cases.fs_arabic (self Sample.st) = ["T١-REQ-٢"; "T١-REQ-٢"; "T1-REQ-2"]
  /\ count (is_issue "error" "duplicate_id" "Duplicate traceability ID: T١-REQ-٢")
           (issues_of (validate_all Cases.fs_arabic false Sample.st).2) = 1%nat
  /\ (validate_all Cases.fs_arabic true Sample.st).1 = Exited 1.
Proof. repeat split. Qed.






(** The severities and categories of the two kinds of issue. *)
Lemma has_category_duplicate cat dup_id :
  has_category cat (duplicate_issue dup_id) = String.eqb "duplicate_id" cat.
Proof. reflexivity. Qed.

Lemma has_category_missing cat target :
  has_category cat (missing_issue target) = String.eqb "missing_file" cat.
Proof. reflexivity. Qed.

Lemma count_true {A} (l : list A) : count (fun _ => true) l = length l.
Proof. induction l as [|x l IH]; cbn; [done | by rewrite IH]. Qed.

(** The [missing_file] issues of a run are, in order, one per configured
    target that is absent. *)
Lemma missing_file_issues_list fs blocking st :
  filter (fun issue => has_category "missing_file" issue = true)
         (issues_of (validate_all fs blocking st).2)
  = map missing_issue
        (filter (fun t => absent fs (self st) t = true) (configured_targets (self st))).
Proof.
  rewrite issues_after_validate_all. unfold collected. rewrite filter_app.
  assert (forall l, filter (fun issue => has_category "missing_file" issue = true)
                      (map duplicate_issue l) = []) as ->.
  { intros l. induction l as [|d l IH]; [done|]. cbn [map].
    by rewrite filter_cons_False. }
  cbn [app].
  induction (filter _ (configured_targets (self st))) as [|t l IH]; [done|].
  cbn [map]. by rewrite filter_cons_True, IH.
Qed.

(** C5. When every configured cross-reference target exists under the
    documentation root there is no [missing_file] issue; in general there
    is one [missing_file] issue per absent entry of the list, each of
    severity [warning]: an absent name listed [k] times gets [k] issues. *)
Theorem missing_file_issues :
  forall fs blocking st,
    (Forall (fun t => absent fs (self st) t = false) (configured_targets (self st)) ->
     count (has_category "missing_file") (issues_of (validate_all fs blocking st).2) = 0%nat)
    /\ count (has_category "missing_file") (issues_of (validate_all fs blocking st).2)
       = count (absent fs (self st)) (configured_targets (self st))
    /\ (forall t,
          absent fs (self st) t = true ->
          count (is_issue "warning" "missing_file" ("Referenced file missing: " +:+ t))
                (issues_of (validate_all fs blocking st).2)
          = count (String.eqb t) (configured_targets (self st)))
    /\ (forall issue,
          issue ∈ issues_of (validate_all fs blocking st).2 ->
          category issue = "missing_file" -> severity issue = "warning").
Proof.
  intros fs blocking st. rewrite issues_after_validate_all. unfold collected.
  assert (count (has_category "missing_file")
            (map duplicate_issue (duplicates (tree_ids fs (self st)))
             ++ map missing_issue
                  (filter (fun t => absent fs (self st) t = true) (configured_targets (self st))))
          = count (absent fs (self st)) (configured_targets (self st))) as Hcount.
  { rewrite count_app, !count_map, count_filter.
    rewrite count_none by done. cbn [Nat.add].
    apply count_ext. intros t. rewrite has_category_missing. apply andb_true_r. }
  split; [|split; [done|split]].
  - intros Hall. rewrite Hcount. apply count_none.
    intros t Ht. by apply (proj1 (Forall_forall _ _) Hall).
  - intros t Ht. rewrite count_app, !count_map, count_filter.
    rewrite count_none by done. cbn [Nat.add].
    apply count_ext. intros x. rewrite is_issue_missing.
    change (String.eqb "warning" "warning") with true.
    change (String.eqb "missing_file" "missing_file") with true. cbn [andb].
    destruct (String.eqb_spec t x) as [<-|Hne]; [by rewrite Ht | apply andb_false_r].
  - intros issue [Hin|Hin]%elem_of_app Hcat.
    + apply list_elem_of_In, in_map_iff in Hin as (d & <- & _). done.
    + apply list_elem_of_In, in_map_iff in Hin as (t & <- & _). done.
Qed.

Lemma missing_file_issues_witness :
  count (has_category "missing_file")
        (issues_of (validate_all Sample.fs_clean false Sample.st).2) = 0%nat
  /\ count (is_issue "warning" "missing_file" "Referenced file missing: safety.md")
           (issues_of (validate_all Sample.fs false Sample.st).2) = 2%nat
  /\ count (is_issue "warning" "missing_file" "Referenced file missing: glossary.md")
           (issues_of (validate_all Sample.fs false Sample.st).2) = 1%nat.
Proof.
  destruct (missing_file_issues Sample.fs_clean false Sample.st) as [Hnone _].
  destruct (missing_file_issues Sample.fs false Sample.st) as (_ & _ & Habsent & _).
  split; [|split].
  - apply Hnone. repeat constructor.
  - apply (Habsent "safety.md"). reflexivity.
  - apply (Habsent "glossary.md"). reflexivity.
Defined.

(** C8. A second call of [validate_all], on the same configuration and
    documentation tree, returns a list equal to the one the first call
    returned: the second run fills a list object of its own, the list of
    the first run is not touched, and nothing of it is carried over. *)
Theorem validate_all_twice :
  forall fs blocking st r1 st1,
    validate_all fs blocking st = (Returned r1, st1) ->
    let second := validate_all fs blocking st1 in
    let r2 := validation_issues (self second.2) in
    second.1 = Returned r2
    /\ r1 <> r2
    /\ heap st1 !! r1 = Some (collected fs (self st))
    /\ heap second.2 !! r1 = Some (collected fs (self st))
    /\ heap second.2 !! r2 = Some (collected fs (self st)).
Proof.
  intros fs blocking st r1 st1. rewrite validate_all_spec.
  destruct (blocking && existsb is_error (collected fs (self st))) eqn:Hexit; [done|].
  intros [= <- <-]. intros second r2. unfold r2, second. clear r2 second.
  rewrite validate_all_spec. cbn [self heap config docs_dir fst snd validation_issues].
  change (collected fs (mkFramework _ _ _ _ _)) with (collected fs (self st)).
  rewrite Hexit.
  set (l1 := fresh (dom (heap st))).
  set (l2 := fresh (dom (<[l1 := collected fs (self st)]> (heap st)))).
  assert (l1 <> l2) as Hne.
  { intros Heq. apply (is_fresh (dom (<[l1 := collected fs (self st)]> (heap st)))).
    fold l2. rewrite <- Heq. apply elem_of_dom. rewrite lookup_insert_eq. eauto. }
  split; [done|]. split; [done|]. split; [|split].
  - apply lookup_insert_eq.
  - rewrite lookup_insert_ne by done. apply lookup_insert_eq.
  - apply lookup_insert_eq.
Qed.

Lemma validate_all_twice_witness :
  let first := validate_all Sample.fs false Sample.st in
  let second := validate_all Sample.fs false first.2 in
  first.1 = Returned 2%positive
  /\ second.1 = Returned 3%positive
  /\ heap second.2 !! 2%positive = Some (collected Sample.fs (self Sample.st))
  /\ heap second.2 !! 3%positive = Some (collected Sample.fs (self Sample.st))
  /\ length (collected Sample.fs (self Sample.st)) = 4%nat.
Proof.
  intros first second.
  destruct (validate_all_twice Sample.fs false Sample.st 2%positive first.2 eq_refl)
    as (Hsecond & _ & _ & Hr1 & Hr2).
  split; [reflexivity|]. split; [exact Hsecond|]. split; [exact Hr1|].
  split; [exact Hr2 | reflexivity].
Defined.

(** ** Generation *)

Lemma dict_get_None {V} (k : string) (d : list (string * V)) :
  dict_get k d = None <-> k ∉ d.*1.
Proof.
  induction d as [|[k' v] d IH]; cbn [dict_get fmap list_fmap fst].
  - split; [intros _; apply not_elem_of_nil | done].
  - rewrite not_elem_of_cons. destruct (String.eqb_spec k' k) as [->|Hne].
    + split; [done | intros [? _]; done].
    + rewrite IH. split; [intros ?; split; [congruence | done] | intros [_ ?]; done].
Qed.

(** C6. [generate_module] returns [None] for a name that is not among
    the configured generators, and for a configured generator whose
    [template] names a template the registry does not hold.  The function
    is total: no call of it raises. *)
Theorem generate_module_lookup_failure :
  forall fs s module_name,
    (module_name ∉ get_available_generators s -> generate_module fs s module_name = None)
    /\ (forall generator_config template_name,
          dict_get module_name (default [] (code_generators (config s)))
            = Some generator_config ->
          template generator_config = Some template_name ->
          templates s !! template_name = None ->
          generate_module fs s module_name = None).
Proof.
  intros fs s module_name. unfold generate_module, get_available_generators. split.
  - intros Hnot%dict_get_None. by rewrite Hnot.
  - intros generator_config template_name -> Htemplate Hreg.
    rewrite Htemplate. cbn [default from_option id]. by rewrite Hreg.
Qed.

Lemma generate_module_lookup_failure_witness :
  generate_module Sample.fs (self Sample.st) "gyro-driver" = None
  /\ generate_module Sample.fs (self Sample.st) "fsm" = None.
Proof.
  destruct (generate_module_lookup_failure Sample.fs (self Sample.st) "gyro-driver")
    as [Hname _].
  destruct (generate_module_lookup_failure Sample.fs (self Sample.st) "fsm")
    as [_ Htemplate].
  split.
  - apply Hname.
    apply (proj1 (dict_get_None "gyro-driver"
                    (default [] (code_generators (config (self Sample.st)))))).
    reflexivity.
  - apply (Htemplate Sample.unknown_entry "state_machine"); reflexivity.
Defined.

(** Every Framework a program can reach keeps the documentation root and
    the built-in template under the default name. *)
Lemma reachable_invariant st :
  reachable st ->
  docs_dir (self st) = "docs" /\ is_Some (templates (self st) !! "hal_implementation").
Proof.
  induction 1 as [config_path read h st Hinit | fs blocking st _ [IHd IHt]
                 | name t st _ [IHd IHt]].
  - unfold __init__ in Hinit. destruct (_load_config read); [|done].
    injection Hinit as <-. cbn. split; [done|]. rewrite lookup_insert_eq. eauto.
  - rewrite validate_all_spec. cbn. done.
  - cbn. split; [done|]. by apply lookup_insert_is_Some'; right.
Qed.

(** C2 (amended). For a configured generator, a [template] field naming a
    template the registry does not hold makes [generate_module] return
    [None]; an absent [template] field stands for ["hal_implementation"],
    and the module is rendered by the template registered under that name. *)
Theorem generate_module_template_resolution :
  forall fs st module_name generator_config,
    reachable st ->
    dict_get module_name (default [] (code_generators (config (self st))))
      = Some generator_config ->
    (forall template_name,
        template generator_config = Some template_name ->
        templates (self st) !! template_name = None ->
        generate_module fs (self st) module_name = None)
    /\ (template generator_config = None ->
        is_Some (templates (self st) !! "hal_implementation")
        /\ generate_module fs (self st) module_name
           = (fun t => generate t generator_config
                         (_extract_specifications fs (self st)
                            (default [] (traceability_ids generator_config))))
             <$> templates (self st) !! "hal_implementation").
Proof.
  intros fs st module_name generator_config Hreach Hget.
  unfold generate_module. rewrite Hget. split.
  - intros template_name -> Hreg. cbn [default from_option id]. by rewrite Hreg.
  - intros ->. cbn [default from_option id].
    destruct (reachable_invariant st Hreach) as [_ [t Ht]].
    rewrite Ht. split; [by exists t | done].
Qed.

Lemma sample_reachable : reachable Sample.st.
Proof. by apply (reach_init "tools/project-config.json" (Some Sample.cfg) ∅). Defined.

Lemma generate_module_template_resolution_witness :
  generate_module Sample.fs (self Sample.st) "fsm" = None
  /\ generate_module Sample.fs (self Sample.st) "sensor-hal"
     = Some (HalImplementationTemplate_generate Sample.hal_entry
               (_extract_specifications Sample.fs (self Sample.st) ["T1-REQ-001"])).
Proof.
  destruct (generate_module_template_resolution Sample.fs Sample.st "fsm"
              Sample.unknown_entry sample_reachable eq_refl) as [Hunknown _].
  destruct (generate_module_template_resolution Sample.fs Sample.st "sensor-hal"
              Sample.hal_entry sample_reachable eq_refl) as [_ Habsent].
  split.
  - apply (Hunknown "state_machine"); reflexivity.
  - apply (Habsent eq_refl).
Defined.

(** C2 as stated fails: the entry [sensor-hal] has no [template] field,
    and [generate_module] renders it with the HAL template instead of
    returning [None]. *)
Lemma generate_module_default_counterexample :
  dict_get "sensor-hal" (default [] (code_generators (config (self Sample.st))))
    = Some Sample.hal_entry
  /\ template Sample.hal_entry = None
  /\ generate_module Sample.fs (self Sample.st) "sensor-hal"
     = Some (HalImplementationTemplate_generate Sample.hal_entry
               ["l8\nl9\nl10 T1-REQ-001\nl11\nl12\nl13\nl14"])
  /\ generate_module Sample.fs (self Sample.st) "sensor-hal" <> None.
Proof. repeat split; try reflexivity. vm_compute. discriminate. Qed.

(** C7. With [target_struct] ["FooImpl"] and [trait_impl] ["BarTrait"]
    the HAL scaffold contains the structure declaration of [FooImpl] and
    the implementation block of [BarTrait] for [FooImpl], whatever the
    other fields and the specification windows. *)
Theorem hal_template_identifiers :
  forall config specs,
    target_struct config = Some "FooImpl" ->
    trait_impl config = Some "BarTrait" ->
    Str.contains "pub struct FooImpl {" (generate HalImplementationTemplate config specs) = true
    /\ Str.contains "impl BarTrait for FooImpl {"
                    (generate HalImplementationTemplate config specs) = true.
Proof.
  intros config specs Hs Ht. cbn [generate HalImplementationTemplate].
  unfold HalImplementationTemplate_generate. rewrite Hs, Ht.
  split; do 2 apply contains_app_r; reflexivity.
Qed.

Lemma hal_template_identifiers_witness :
  Str.contains "pub struct FooImpl {"
    (generate HalImplementationTemplate Sample.hal_entry ["window"]) = true
  /\ Str.contains "impl BarTrait for FooImpl {"
       (generate HalImplementationTemplate Sample.hal_entry ["window"]) = true.
Proof. apply (hal_template_identifiers Sample.hal_entry ["window"]); reflexivity. Defined.

(** C10. The control-loop scaffold is a function of [target_struct]
    alone: two configurations with the same [target_struct] render the
    same text, whatever their other fields and the windows passed. *)
Theorem control_template_depends_on_target_struct :
  forall config1 config2 specs1 specs2,
    target_struct config1 = target_struct config2 ->
    generate ControlSystemTemplate config1 specs1
    = generate ControlSystemTemplate config2 specs2.
Proof.
  intros config1 config2 specs1 specs2 Heq.
  cbn [generate ControlSystemTemplate]. unfold ControlSystemTemplate_generate.
  by rewrite Heq.
Qed.

Lemma control_template_depends_on_target_struct_witness :
  generate ControlSystemTemplate Sample.control_entry []
  = generate ControlSystemTemplate
      (mkGeneratorConfig (Some "hal_implementation") (Some "AttitudeController")
         (Some "Stabilizer") (Some ["no-overshoot"]) (Some ["T1-REQ-001"]))
      ["l8\nl9\nl10 T1-REQ-001"].
Proof. apply control_template_depends_on_target_struct. reflexivity. Defined.

(** ** The documentation root *)

(** C9. In every reachable state of a Framework, whatever the
    configuration path and content it was built from, the documentation
    root is ["docs"]; the ID scan of the validation and the specification
    extraction read the documents of that directory and nothing else:
    two file systems with the same markdown files under ["docs"] give the
    same results. *)
Theorem docs_dir_fixed :
  forall st,
    reachable st ->
    docs_dir (self st) = "docs"
    /\ forall fs1 fs2,
         glob fs1 "docs" "*.md" = glob fs2 "docs" "*.md" ->
         _validate_traceability_ids fs1 st = _validate_traceability_ids fs2 st
         /\ forall traceability_ids,
              _extract_specifications fs1 (self st) traceability_ids
              = _extract_specifications fs2 (self st) traceability_ids.
Proof.
  intros st [Hdocs _]%reachable_invariant. split; [done|].
  intros fs1 fs2 Hglob. split.
  - rewrite !validate_traceability_ids_spec. unfold tree_ids. by rewrite Hdocs, Hglob.
  - intros ids. unfold _extract_specifications. by rewrite Hdocs, Hglob.
Qed.

Lemma docs_dir_fixed_witness :
  docs_dir (self (validate_all Sample.fs false Sample.st).2) = "docs"
  /\ _extract_specifications Sample.fs (self Sample.st) ["T1-REQ-001"]
     = _extract_specifications Sample.fs_elsewhere (self Sample.st) ["T1-REQ-001"].
Proof.
  destruct (docs_dir_fixed (validate_all Sample.fs false Sample.st).2
              (reach_validate_all Sample.fs false Sample.st sample_reachable))
    as [Hdocs _].
  destruct (docs_dir_fixed Sample.st sample_reachable) as [_ Hreads].
  split; [exact Hdocs|].
  apply (Hreads Sample.fs Sample.fs_elsewhere). reflexivity.
Defined.

(** * Further properties of the engine *)

(** ** Splitting and joining *)

Section SplitJoin.
Implicit Types (s sep x : string) (l : list string).
Local Arguments String.append : simpl nomatch.

Lemma split_go_cons sep k s : exists h t, Str.split_go sep k s = h :: t.
Proof. destruct (split_go_pieces sep s k) as (h & t & -> & _). eauto. Qed.

Lemma split_no_separator sep s : Str.contains sep s = false -> Str.split sep s = [s].
Proof.
  unfold Str.split. induction s as [|c s IH]; [done|].
  rewrite contains_unfold, orb_false_iff. intros [Hstart Hrest].
  cbn [Str.split_go]. by rewrite Hstart, (IH Hrest).
Qed.

Lemma join_cons sep x y l : Str.join sep (x :: y :: l) = x +:+ sep +:+ Str.join sep (y :: l).
Proof. reflexivity. Qed.

Lemma join_app sep l1 l2 :
  l1 <> [] -> l2 <> [] ->
  Str.join sep (l1 ++ l2) = Str.join sep l1 +:+ sep +:+ Str.join sep l2.
Proof.
  intros H1 H2. induction l1 as [|x [|y l1] IH]; [done| |].
  - destruct l2; [done|]. reflexivity.
  - cbn [app] in *. rewrite !join_cons, IH by done. by rewrite !append_assoc.
Qed.

Lemma contains_empty s : Str.contains EmptyString s = true.
Proof. by destruct s. Qed.

Lemma contains_refl s : Str.contains s s = true.
Proof. apply contains_spec. exists EmptyString, EmptyString. by rewrite append_nil_r. Qed.

Lemma contains_app_l sub a s : Str.contains sub a = true -> Str.contains sub (a +:+ s) = true.
Proof.
  rewrite !contains_spec. intros (u & v & ->). exists u, (v +:+ s).
  by rewrite !append_assoc.
Qed.

(** A run of consecutive pieces, joined, is a passage of the joined whole. *)
Lemma join_infix sep l1 l l2 :
  Str.contains (Str.join sep l) (Str.join sep (l1 ++ l ++ l2)) = true.
Proof.
  destruct (decide (l = [])) as [->|Hl]; [apply contains_empty|].
  assert (forall l2, Str.contains (Str.join sep l) (Str.join sep (l ++ l2)) = true) as Hright.
  { intros k. destruct (decide (k = [])) as [->|Hk].
    - rewrite app_nil_r. apply contains_refl.
    - rewrite join_app by done. apply contains_app_l, contains_refl. }
  destruct (decide (l1 = [])) as [->|Hl1]; [apply Hright|].
  rewrite join_app; [|done|by destruct l].
  by do 2 apply contains_app_r.
Qed.

Lemma join_elem sep x l : x ∈ l -> Str.contains x (Str.join sep l) = true.
Proof.
  intros (l1 & l2 & ->)%list_elem_of_split.
  apply (join_infix sep l1 [x] l2).
Qed.

Lemma append_eq_length (a1 a2 b1 b2 : string) :
  String.length a1 = String.length a2 -> a1 +:+ b1 = a2 +:+ b2 -> a1 = a2 /\ b1 = b2.
Proof.
  revert a2. induction a1 as [|c a1 IH]; intros [|d a2] Hlen Heq; simpl in *; try done.
  injection Heq as -> Heq. destruct (IH a2) as [-> ->]; [lia | done | done].
Qed.

(** Joining the pieces of a text gives the text back; in the middle of a
    separator, what is left of the text after the separator. *)
Lemma join_split_go sep s k :
  sep <> EmptyString -> (k <= String.length s)%nat ->
  exists pre, String.length pre = k /\ s = pre +:+ Str.join sep (Str.split_go sep k s).
Proof.
  intros Hsep. revert k. induction s as [|c s IH]; intros k Hk.
  - cbn in Hk. assert (k = 0%nat) as -> by lia. by exists EmptyString.
  - cbn [Str.split_go]. destruct k as [|k].
    + exists EmptyString. split; [done|]. cbn [String.append].
      destruct (Str.startswith sep (String c s)) eqn:Hstart.
      * apply startswith_spec in Hstart as [b Hb].
        destruct sep as [|c' sep']; [done|]. cbn in Hb. injection Hb as <- ->.
        cbn [String.length]. replace (S (String.length sep') - 1)%nat
          with (String.length sep') by lia.
        destruct (IH (String.length sep')) as (pre & Hlen & Hpre).
        { clear. induction sep' as [|d sep' IH]; cbn; lia. }
        destruct (split_go_cons (String c sep') (String.length sep') (sep' +:+ b))
          as (h & t & Hsplit).
        rewrite Hsplit in *. rewrite join_cons. cbn [String.append]. f_equal.
        by destruct (append_eq_length _ _ _ _ (eq_sym Hlen) Hpre) as [-> ->].
      * destruct (IH 0%nat ltac:(lia)) as (pre & Hlen & Hpre).
        destruct pre; [|done]. cbn [String.append] in Hpre.
        destruct (split_go_cons sep 0 s) as (h & t & Hsplit). rewrite Hsplit in *.
        rewrite Hpre at 1. by destruct t.
    + destruct (IH k) as (pre & Hlen & Hpre); [cbn in Hk; lia|].
      exists (String c pre). split; [cbn; lia|]. cbn [String.append]. by f_equal.
Qed.

Lemma join_split sep s : sep <> EmptyString -> Str.join sep (Str.split sep s) = s.
Proof.
  intros Hsep. destruct (join_split_go sep s 0 Hsep) as (pre & Hlen & Hpre); [lia|].
  destruct pre; [|done]. by rewrite Hpre at 2.
Qed.

End SplitJoin.

(** ** What the extractor returns *)

Lemma numbered_between_infix (lines : list string) k lo hi :
  exists a b, lines = a ++ numbered_between k lines lo hi ++ b.
Proof.
  rewrite numbered_between_slice. unfold Str.slice.
  set (m := Z.to_nat (Z.max 0 (lo - k))). set (n := Z.to_nat _).
  exists (take m lines), (drop n (drop m lines)).
  by rewrite take_drop, take_drop.
Qed.

Lemma numbered_between_length (lines : list string) k lo hi :
  (length (numbered_between k lines lo hi) <= Z.to_nat (hi - lo + 1))%nat.
Proof.
  rewrite numbered_between_slice. unfold Str.slice, Str.len.
  rewrite length_take. lia.
Qed.

Lemma first_line_in_window trace_id k (lines : list string) n lo hi :
  first_line_with trace_id k lines = Some n -> lo <= n <= hi ->
  exists line, line ∈ numbered_between k lines lo hi /\ Str.contains trace_id line = true.
Proof.
  revert k. induction lines as [|x rest IH]; intros k; cbn [first_line_with]; [done|].
  destruct (Str.contains trace_id x) eqn:Hx.
  - intros [= ->] [Hlo Hhi]. exists x. split; [|done]. cbn [numbered_between].
    rewrite (proj2 (Z.leb_le lo n) Hlo), (proj2 (Z.leb_le n hi) Hhi). by left.
  - intros Hn Hrange. destruct (IH _ Hn Hrange) as (line & Hin & Hline).
    exists line. split; [|done]. cbn [numbered_between]. apply elem_of_app. by right.
Qed.

Lemma extract_id_contribution content trace_id :
  extract_id content [] trace_id = contribution trace_id content.
Proof. by rewrite extract_id_spec. Qed.

(** The shape of a window: a run of one to seven consecutive lines of
    the document, one of which contains the ID, joined by the separator. *)
Lemma contribution_shape trace_id content w :
  w ∈ contribution trace_id content ->
  exists a ws b line,
    lines_of content = a ++ ws ++ b
    /\ w = Str.join "\n" ws
    /\ (length ws <= 7)%nat
    /\ line ∈ ws
    /\ Str.contains trace_id line = true.
Proof.
  unfold contribution.
  destruct (first_line_with trace_id 1 (lines_of content)) as [n|] eqn:Hn;
    [|by intros ?%elem_of_nil].
  intros ->%list_elem_of_singleton. unfold window.
  destruct (numbered_between_infix (lines_of content) 1 (n - 2) (n + 4)) as (a & b & Hab).
  destruct (first_line_in_window _ _ _ _ (n - 2) (n + 4) Hn) as (line & Hin & Hline); [lia|].
  exists a, (numbered_between 1 (lines_of content) (n - 2) (n + 4)), b, line.
  split; [done|]. split; [done|]. split; [|done].
  etrans; [apply numbered_between_length|]. lia.
Qed.

Lemma extract_elem fs s ids w :
  w ∈ _extract_specifications fs s ids ->
  exists doc trace_id,
    doc ∈ glob fs (docs_dir s) "*.md" /\ trace_id ∈ ids
    /\ w ∈ contribution trace_id doc.2.
Proof.
  rewrite extract_specifications_spec.
  intros (per_doc & Hper & Hw)%list_elem_of_In%in_concat.
  apply in_map_iff in Hper as (doc & <- & Hdoc%list_elem_of_In).
  apply in_concat in Hw as (per_id & Hid & Hw%list_elem_of_In).
  apply in_map_iff in Hid as (trace_id & <- & Hin%list_elem_of_In).
  by exists doc, trace_id.
Qed.

(** X1. The windows come document by document in scan order and, within
    a document, ID by ID in the order of the list; a document gives at
    most one window for an ID. *)
Theorem extract_specifications_order :
  forall fs s ids,
    _extract_specifications fs s ids
    = concat (map (fun doc_file =>
        concat (map (fun trace_id => extract_id doc_file.2 [] trace_id) ids))
        (glob fs (docs_dir s) "*.md"))
    /\ forall content trace_id, (length (extract_id content [] trace_id) <= 1)%nat.
Proof.
  intros fs s ids. split.
  - rewrite extract_specifications_spec. f_equal. apply map_ext. intros doc.
    f_equal. apply map_ext. intros trace_id. by rewrite extract_id_contribution.
  - intros content trace_id. rewrite extract_id_contribution. unfold contribution.
    destruct (first_line_with _ _ _); cbn; lia.
Qed.

(** X2. Every window the extractor returns contains one of the requested
    IDs. *)
Theorem extract_window_mentions_id :
  forall fs s ids w,
    w ∈ _extract_specifications fs s ids ->
    exists trace_id, trace_id ∈ ids /\ Str.contains trace_id w = true.
Proof.
  intros fs s ids w (doc & trace_id & _ & Hid & Hw)%extract_elem.
  apply contribution_shape in Hw as (a & ws & b & line & _ & -> & _ & Hin & Hline).
  exists trace_id. split; [done|].
  eapply contains_trans; [exact Hline|]. by apply join_elem.
Qed.

Lemma extract_window_mentions_id_witness :
  exists trace_id,
    trace_id ∈ ["T9-NONE-000"; "T1-REQ-001"]
    /\ Str.contains trace_id "l8\nl9\nl10 T1-REQ-001\nl11\nl12\nl13\nl14" = true.
Proof.
  apply (extract_window_mentions_id Sample.fs (self Sample.st)).
  vm_compute. by left.
Defined.

(** X3. Every window is a passage of one of the scanned documents: the
    extractor returns no text that is not in the tree. *)
Theorem extract_window_is_passage :
  forall fs s ids w,
    w ∈ _extract_specifications fs s ids ->
    exists doc, doc ∈ glob fs (docs_dir s) "*.md" /\ Str.contains w doc.2 = true.
Proof.
  intros fs s ids w (doc & trace_id & Hdoc & _ & Hw)%extract_elem.
  apply contribution_shape in Hw as (a & ws & b & line & Hlines & -> & _).
  exists doc. split; [done|].
  rewrite <- (join_split "\n" doc.2) by done.
  unfold lines_of in Hlines. rewrite Hlines. apply join_infix.
Qed.

Lemma extract_window_is_passage_witness :
  exists doc,
    doc ∈ glob Sample.fs "docs" "*.md"
    /\ Str.contains "l8\nl9\nl10 T1-REQ-001\nl11\nl12\nl13\nl14" doc.2 = true.
Proof.
  apply (extract_window_is_passage Sample.fs (self Sample.st) ["T1-REQ-001"]).
  vm_compute. by left.
Defined.

(** X4. A window is made of at least one and at most seven consecutive
    lines of its document, joined by the separator. *)
Theorem extract_window_size :
  forall fs s ids w,
    w ∈ _extract_specifications fs s ids ->
    exists doc a ws b,
      doc ∈ glob fs (docs_dir s) "*.md"
      /\ lines_of doc.2 = a ++ ws ++ b
      /\ w = Str.join "\n" ws
      /\ (1 <= length ws <= 7)%nat.
Proof.
  intros fs s ids w (doc & trace_id & Hdoc & _ & Hw)%extract_elem.
  apply contribution_shape in Hw as (a & ws & b & line & Hlines & -> & Hlen & Hin & _).
  exists doc, a, ws, b. repeat split; try done.
  destruct ws; [by apply elem_of_nil in Hin | cbn; lia].
Qed.

Lemma extract_window_size_witness :
  exists doc a ws b,
    doc ∈ glob Sample.fs "docs" "*.md"
    /\ lines_of doc.2 = a ++ ws ++ b
    /\ "l8\nl9\nl10 T1-REQ-001\nl11\nl12\nl13\nl14" = Str.join "\n" ws
    /\ (1 <= length ws <= 7)%nat.
Proof.
  apply (extract_window_size Sample.fs (self Sample.st) ["T1-REQ-001"]).
  vm_compute. by left.
Defined.

(** X5. In a tree whose documents hold no occurrence of the separator
    text, the windows for an ID are the whole contents of the documents
    that contain it, in scan order. *)
Theorem extract_unsplit_documents :
  forall fs s trace_id,
    Forall (fun doc => Str.contains "\n" doc.2 = false) (glob fs (docs_dir s) "*.md") ->
    _extract_specifications fs s [trace_id]
    = map snd (filter (fun doc => Str.contains trace_id doc.2 = true)
                      (glob fs (docs_dir s) "*.md")).
Proof.
  intros fs s trace_id. rewrite extract_one_spec.
  induction 1 as [|doc docs Hdoc _ IH]; [done|].
  cbn [map concat]. rewrite filter_cons, IH. unfold contribution, lines_of.
  rewrite (split_no_separator _ _ Hdoc). cbn [first_line_with].
  destruct (decide (Str.contains trace_id doc.2 = true)) as [Hin|Hout].
  - rewrite Hin. reflexivity.
  - apply not_true_is_false in Hout. by rewrite Hout.
Qed.

Lemma extract_unsplit_documents_witness :
  _extract_specifications Sample.fs_design (self Sample.st) ["T2-DES-007"]
  = [Sample.design].
Proof.
  apply (extract_unsplit_documents Sample.fs_design (self Sample.st) "T2-DES-007").
  repeat constructor.
Defined.


(** ** What a validation run reports *)

Lemma scan_ids_later ids before found_ids duplicate_ids :
  (forall x, x ∈ found_ids <-> x ∈ before) ->
  (fold_left scan_id ids (found_ids, duplicate_ids)).2
  = duplicate_ids ++ later_occurrences before ids.
Proof.
  revert before found_ids duplicate_ids.
  induction ids as [|id_str ids IH]; intros before F D HF; cbn [fold_left later_occurrences].
  - by rewrite app_nil_r.
  - unfold scan_id at 2. destruct (decide (id_str ∈ F)) as [Hin|Hnin].
    + rewrite (IH (before ++ [id_str])).
      * rewrite bool_decide_eq_true_2 by by apply HF. by rewrite <- app_assoc.
      * intros x. rewrite elem_of_app, list_elem_of_singleton, <- HF.
        split; [tauto | intros [?| ->]; done].
    + rewrite (IH (before ++ [id_str])).
      * rewrite bool_decide_eq_false_2 by by rewrite <- HF. done.
      * intros x. rewrite elem_of_union, elem_of_singleton, elem_of_app,
          list_elem_of_singleton, <- HF. tauto.
Qed.

Lemma duplicates_later ids : duplicates ids = later_occurrences [] ids.
Proof.
  unfold duplicates. rewrite (scan_ids_later ids []); [done|].
  intros x. rewrite elem_of_empty. by rewrite elem_of_nil.
Qed.

Lemma size_list_to_set_snoc (before : list string) (x : string) :
  size (list_to_set (before ++ [x]) : gset string)
  = if bool_decide (x ∈ before) then size (list_to_set before : gset string)
    else S (size (list_to_set before : gset string)).
Proof.
  rewrite list_to_set_app_L. cbn [list_to_set foldr]. rewrite union_empty_r_L.
  case_bool_decide as Hin.
  - f_equal. apply set_eq. intros y.
    rewrite elem_of_union, elem_of_singleton, elem_of_list_to_set.
    split; [intros [?| ->]; done | tauto].
  - rewrite size_union, size_singleton; [lia|].
    intros y Hy ->%elem_of_singleton. by apply elem_of_list_to_set in Hy.
Qed.

Lemma later_occurrences_length before ids :
  (length (later_occurrences before ids)
   + size (list_to_set (before ++ ids) : gset string)
   = length ids + size (list_to_set before : gset string))%nat.
Proof.
  revert before. induction ids as [|id_str ids IH]; intros before;
    cbn [later_occurrences length].
  - rewrite app_nil_r. lia.
  - rewrite length_app. pose proof (IH (before ++ [id_str])) as Hrest.
    rewrite <- app_assoc in Hrest. cbn [app] in Hrest.
    rewrite size_list_to_set_snoc in Hrest.
    destruct (bool_decide (id_str ∈ before)); cbn [length]; lia.
Qed.

Lemma count_ge_1 (x : string) l : x ∈ l -> (1 <= count (String.eqb x) l)%nat.
Proof.
  induction 1 as [y l|y z l _ IH]; cbn [count].
  - rewrite String.eqb_refl. lia.
  - lia.
Qed.

Lemma count_NoDup (ids : list string) :
  (forall x, (count (String.eqb x) ids <= 1)%nat) -> NoDup ids.
Proof.
  induction ids as [|y ids IH]; intros Hc; constructor.
  - intros Hin%count_ge_1. specialize (Hc y). cbn in Hc.
    rewrite String.eqb_refl in Hc. lia.
  - apply IH. intros x. specialize (Hc x). cbn in Hc. lia.
Qed.

Lemma duplicates_nil_NoDup ids : duplicates ids = [] <-> NoDup ids.
Proof.
  split; [|apply NoDup_duplicates].
  intros Hnil. apply count_NoDup. intros x.
  pose proof (duplicates_count x ids) as Hc. rewrite Hnil in Hc. cbn in Hc. lia.
Qed.

Lemma existsb_is_error_collected fs s :
  existsb is_error (collected fs s) = negb (bool_decide (duplicates (tree_ids fs s) = [])).
Proof.
  unfold collected. rewrite existsb_app.
  assert (forall l, existsb is_error (map missing_issue l) = false) as ->.
  { intros l. induction l; [done | by cbn]. }
  rewrite orb_false_r. destruct (duplicates (tree_ids fs s)); done.
Qed.

(** X7. The issue list of a run, in full: first one [duplicate_id] error
    for every ID occurrence that repeats an earlier occurrence of the
    scan, in scan order, then one [missing_file] warning for every
    configured target that is absent, in configuration order. *)
Theorem validate_all_issue_list :
  forall fs blocking st,
    issues_of (validate_all fs blocking st).2
    = map duplicate_issue (later_occurrences [] (tree_ids fs (self st)))
      ++ map missing_issue
           (filter (fun target => absent fs (self st) target = true)
                   (configured_targets (self st))).
Proof.
  intros fs blocking st. rewrite issues_after_validate_all. unfold collected.
  by rewrite duplicates_later.
Qed.

(** X8. An ID with [k] occurrences in the tree gets [k - 1] duplicate
    issues (none when it occurs once or not at all). *)
Theorem duplicate_issues_per_id :
  forall fs blocking st id_str,
    count (is_issue "error" "duplicate_id" ("Duplicate traceability ID: " +:+ id_str))
          (issues_of (validate_all fs blocking st).2)
    = (count (String.eqb id_str) (tree_ids fs (self st)) - 1)%nat.
Proof.
  intros fs blocking st id_str. rewrite issues_after_validate_all. unfold collected.
  rewrite count_app, !count_map.
  rewrite (count_ext _ (String.eqb id_str)).
  2:{ intros dup_id. by rewrite is_issue_duplicate. }
  rewrite duplicates_count, (count_none _ (filter _ _)); [lia|]. done.
Qed.

(** X9. The number of [duplicate_id] issues is the number of ID
    occurrences in the tree less the number of distinct IDs. *)
Theorem duplicate_issues_total :
  forall fs blocking st,
    (count (has_category "duplicate_id") (issues_of (validate_all fs blocking st).2)
     + size (list_to_set (tree_ids fs (self st)) : gset string)
     = length (tree_ids fs (self st)))%nat.
Proof.
  intros fs blocking st. rewrite issues_after_validate_all. unfold collected.
  rewrite duplicates_later, count_app, !count_map.
  rewrite (count_ext _ (fun _ => true)) by done.
  rewrite count_true, (count_none _ (filter _ _)) by done.
  pose proof (later_occurrences_length [] (tree_ids fs (self st))) as Hlen.
  cbn [app list_to_set foldr] in Hlen. rewrite size_empty in Hlen. lia.
Qed.

Lemma blocking_exit_iff_repeated fs st :
  (validate_all fs true st).1 = Exited 1 <-> ~ NoDup (tree_ids fs (self st)).
Proof.
  rewrite validate_all_spec. cbn [fst andb].
  rewrite existsb_is_error_collected, <- duplicates_nil_NoDup.
  case_bool_decide; cbn [negb]; split; done.
Qed.

(** X10. A blocking run ends the process exactly when some ID occurs
    more than once in the tree; absent cross-reference targets alone
    never end it. *)
Theorem validate_all_blocking_exit :
  forall fs st,
    (validate_all fs true st).1 = Exited 1 <-> ~ NoDup (tree_ids fs (self st)).
Proof. exact blocking_exit_iff_repeated. Qed.

(** X11. The flag [blocking] decides how the call ends and nothing
    else: the Framework and the heap are left the same with and without
    it. *)
Theorem validate_all_blocking_same_state :
  forall fs st, (validate_all fs true st).2 = (validate_all fs false st).2.
Proof. intros fs st. by rewrite !validate_all_spec. Qed.

(** X12. A run changes the issue-list reference and nothing else of the
    Framework; the list it fills is a new object, and every list object
    that existed before the call is left as it was. *)
Theorem validate_all_frame :
  forall fs blocking st,
    let st' := (validate_all fs blocking st).2 in
    config_path (self st') = config_path (self st)
    /\ config (self st') = config (self st)
    /\ docs_dir (self st') = docs_dir (self st)
    /\ templates (self st') = templates (self st)
    /\ (validation_issues (self st') ∉ dom (heap st))
    /\ forall l, l ∈ dom (heap st) -> heap st' !! l = heap st !! l.
Proof.
  intros fs blocking st st'. unfold st'. rewrite validate_all_spec.
  cbn [snd self heap config_path config docs_dir templates validation_issues].
  repeat split; try done.
  - apply is_fresh.
  - intros l Hl. apply lookup_insert_ne. intros <-. by apply is_fresh in Hl.
Qed.

Lemma validate_all_frame_witness :
  heap (validate_all Sample.fs false (validate_all Sample.fs false Sample.st).2).2
    !! 1%positive = Some [].
Proof.
  destruct (validate_all_frame Sample.fs false (validate_all Sample.fs false Sample.st).2)
    as (_ & _ & _ & _ & _ & Hold).
  rewrite (Hold 1%positive); [reflexivity|]. vm_compute. done.
Defined.

(** X13. Given whether the configuration has [project_name], the issues
    and the way the call ends depend on the Framework only through the
    documentation root and the configured cross-reference targets: the
    value of the project name, the ID format, the required derivation
    fields, the generators, the template registry and the issues of
    earlier runs have no influence. *)
Theorem validate_all_depends_on_targets :
  forall fs blocking named st1 st2,
    docs_dir (self st1) = docs_dir (self st2) ->
    configured_targets (self st1) = configured_targets (self st2) ->
    let call1 := validate_all_call fs blocking named st1 in
    let call2 := validate_all_call fs blocking named st2 in
    (named = true -> issues_of call1.2 = issues_of call2.2)
    /\ ((exists status, call1.1 = CallExited status)
        <-> (exists status, call2.1 = CallExited status))
    /\ ((exists exn, call1.1 = CallRaised exn) <-> (exists exn, call2.1 = CallRaised exn)).
Proof.
  intros fs blocking named st1 st2 Hdocs Htargets call1 call2.
  assert (collected fs (self st1) = collected fs (self st2)) as Hsame.
  { unfold collected, tree_ids, absent. by rewrite Hdocs, Htargets. }
  unfold call1, call2, validate_all_call. destruct named.
  - rewrite !validate_all_spec, Hsame. cbn [fst snd].
    split; [|split].
    + intros _. unfold issues_of. cbn [self heap validation_issues].
      by rewrite !lookup_insert_eq.
    + destruct (blocking && existsb is_error _); split; intros [status H]; eauto; done.
    + destruct (blocking && existsb is_error _); split; intros [exn H]; done.
  - cbn [fst snd]. split; [done|]. split; [split; intros [? ?]; done|].
    split; intros _; eauto.
Qed.

(** X14. No issue carries a location, and the severity goes with the
    category: [error] for [duplicate_id], [warning] for [missing_file];
    there is no other kind of issue. *)
Theorem issues_shape :
  forall fs blocking st issue,
    issue ∈ issues_of (validate_all fs blocking st).2 ->
    file_path issue = None /\ line_number issue = None
    /\ ((severity issue = "error" /\ category issue = "duplicate_id")
        \/ (severity issue = "warning" /\ category issue = "missing_file")).
Proof.
  intros fs blocking st issue. rewrite issues_after_validate_all. unfold collected.
  intros [Hin|Hin]%elem_of_app.
  - apply list_elem_of_In, in_map_iff in Hin as (d & <- & _). cbn. split; [done|]. split; [done|]. by left.
  - apply list_elem_of_In, in_map_iff in Hin as (t & <- & _). cbn. split; [done|]. split; [done|]. by right.
Qed.

Lemma issues_shape_witness :
  file_path (duplicate_issue "T3-SAF-001") = None
  /\ line_number (duplicate_issue "T3-SAF-001") = None
  /\ ((severity (duplicate_issue "T3-SAF-001") = "error"
       /\ category (duplicate_issue "T3-SAF-001") = "duplicate_id")
      \/ (severity (duplicate_issue "T3-SAF-001") = "warning"
          /\ category (duplicate_issue "T3-SAF-001") = "missing_file")).
Proof.
  apply (issues_shape Sample.fs false Sample.st). vm_compute. by left.
Defined.

Lemma validate_all_depends_on_targets_witness :
  issues_of (validate_all_call Sample.fs false true Sample.st).2
  = issues_of (validate_all_call Sample.fs false true Cases.st_other).2.
Proof.
  destruct (validate_all_depends_on_targets Sample.fs false true Sample.st Cases.st_other
              eq_refl eq_refl) as [Hissues _].
  exact (Hissues eq_refl).
Defined.

(** ** Generation and the template registry *)

(** X15. On a Framework just constructed, [generate_module] gives a
    module exactly for the configured generators whose [template] field
    is absent or names one of the two built-in templates. *)
Theorem generate_module_fresh_framework :
  forall config_path cfg h st fs module_name,
    __init__ config_path (Some cfg) h = Ok st ->
    (is_Some (generate_module fs (self st) module_name)
     <-> exists generator_config,
           dict_get module_name (default [] (code_generators cfg)) = Some generator_config
           /\ (template generator_config = None
               \/ template generator_config = Some "hal_implementation"
               \/ template generator_config = Some "control_system")).
Proof.
  intros config_path cfg h st fs module_name [= <-].
  unfold generate_module. cbn [self config templates init_attributes].
  destruct (dict_get module_name _) as [gc|]; [|split; [by intros [? ?] | by intros (? & ? & _)]].
  set (registry := <["hal_implementation" := _]> _).
  assert (forall name, is_Some (registry !! name)
                       <-> name = "hal_implementation" \/ name = "control_system") as Hreg.
  { intros name. unfold registry.
    rewrite !lookup_insert_is_Some, lookup_empty, is_Some_alt.
    split; [intros [->|[_ [->|[_ []]]]]; auto | intros [->| ->]; [by left|right]].
    split; [done | by left]. }
  destruct (registry !! default "hal_implementation" (template gc)) as [t|] eqn:Ht.
  - split; [intros _ | by eauto]. exists gc. split; [done|].
    assert (is_Some (registry !! default "hal_implementation" (template gc))) as Hsome
      by (rewrite Ht; eauto).
    apply Hreg in Hsome. destruct (template gc) as [name|]; cbn in Hsome; [|by left].
    right. destruct Hsome as [->| ->]; auto.
  - split; [by intros [? ?]|]. intros (gc' & [= <-] & Hcases).
    assert (is_Some (registry !! default "hal_implementation" (template gc))) as [? Hsome].
    { apply Hreg. destruct Hcases as [->|[->| ->]]; cbn; auto. }
    congruence.
Qed.

Lemma generate_module_fresh_framework_witness :
  is_Some (generate_module Sample.fs (self Sample.st) "attitude-controller")
  /\ ~ is_Some (generate_module Sample.fs (self Sample.st) "fsm").
Proof.
  split.
  - apply (generate_module_fresh_framework "tools/project-config.json" Sample.cfg ∅
             Sample.st Sample.fs "attitude-controller" eq_refl).
    exists Sample.control_entry. split; [reflexivity | auto].
  - intros Hsome.
    apply (generate_module_fresh_framework "tools/project-config.json" Sample.cfg ∅
             Sample.st Sample.fs "fsm" eq_refl) in Hsome as (gc & [= <-] & [?|[?|?]]);
      discriminate.
Defined.

(** X16. After [add_custom_template name t], every configured generator
    whose template name is [name] (an absent field counting as
    ["hal_implementation"]) is rendered by [t], whatever was registered
    under [name] before: a new name becomes usable, a built-in one is
    replaced, the last registration wins. *)
Theorem add_custom_template_takes_effect :
  forall fs st name t module_name generator_config,
    dict_get module_name (default [] (code_generators (config (self st))))
      = Some generator_config ->
    default "hal_implementation" (template generator_config) = name ->
    generate_module fs (self (add_custom_template name t st).2) module_name
    = Some (generate t generator_config
              (_extract_specifications fs (self st)
                 (default [] (traceability_ids generator_config)))).
Proof.
  intros fs st name t module_name gc Hget Hname.
  unfold generate_module. cbn [add_custom_template snd self config templates].
  rewrite Hget, Hname, lookup_insert_eq. done.
Qed.

Lemma add_custom_template_takes_effect_witness :
  generate_module Sample.fs (self Sample.st) "fsm" = None
  /\ generate_module Sample.fs
       (self (add_custom_template "state_machine" Cases.banner Sample.st).2) "fsm"
     = Some "// module Fsm"
  /\ generate_module Sample.fs
       (self (add_custom_template "hal_implementation" Cases.banner Sample.st).2)
       "sensor-hal"
     = Some "// module FooImpl".
Proof.
  split; [reflexivity|]. split.
  - apply (add_custom_template_takes_effect Sample.fs Sample.st "state_machine"
             Cases.banner "fsm" Sample.unknown_entry); reflexivity.
  - apply (add_custom_template_takes_effect Sample.fs Sample.st "hal_implementation"
             Cases.banner "sensor-hal" Sample.hal_entry); reflexivity.
Defined.

(** X17. [add_custom_template name t] touches the registry entry [name]
    and nothing else: generators resolved through another template name
    render as before, the list of generators is the same, and so are the
    outcome and the issues of a validation run. *)
Theorem add_custom_template_frame :
  forall fs st name t,
    let st' := (add_custom_template name t st).2 in
    (forall module_name,
        (forall generator_config,
            dict_get module_name (default [] (code_generators (config (self st))))
              = Some generator_config ->
            default "hal_implementation" (template generator_config) <> name) ->
        generate_module fs (self st') module_name = generate_module fs (self st) module_name)
    /\ get_available_generators (self st') = get_available_generators (self st)
    /\ (forall blocking,
          (validate_all fs blocking st').1 = (validate_all fs blocking st).1
          /\ issues_of (validate_all fs blocking st').2
             = issues_of (validate_all fs blocking st).2)
    /\ heap st' = heap st.
Proof.
  intros fs st name t st'. unfold st'. split; [|split; [done|split; [|done]]].
  - intros module_name Hother. unfold generate_module.
    cbn [add_custom_template snd self config templates].
    destruct (dict_get module_name _) as [gc|]; [|done].
    rewrite lookup_insert_ne by (intros Heq; by apply (Hother gc)). done.
  - intros blocking. rewrite !issues_after_validate_all, !validate_all_spec. done.
Qed.

Lemma add_custom_template_frame_witness :
  generate_module Sample.fs
    (self (add_custom_template "state_machine" Cases.banner Sample.st).2)
    "attitude-controller"
  = generate_module Sample.fs (self Sample.st) "attitude-controller".
Proof.
  destruct (add_custom_template_frame Sample.fs Sample.st "state_machine" Cases.banner)
    as [Hother _].
  apply Hother. intros gc [= <-]. discriminate.
Defined.

(** ** The scaffolds *)

Section Scaffolds.
Local Arguments String.append : simpl nomatch.

Lemma contains_here n s : Str.startswith n s = true -> Str.contains n s = true.
Proof. intros H. rewrite contains_unfold, H. done. Qed.

Lemma contains_cons n c s : Str.contains n s = true -> Str.contains n (String c s) = true.
Proof. intros H. rewrite contains_unfold, H. apply orb_true_r. Qed.

Lemma startswith_nil s : Str.startswith EmptyString s = true.
Proof. by destruct s. Qed.

Lemma startswith_cons c n s :
  Str.startswith n s = true -> Str.startswith (String c n) (String c s) = true.
Proof. intros H. cbn. by rewrite Ascii.eqb_refl. Qed.

Lemma startswith_app a n s :
  Str.startswith n s = true -> Str.startswith (a +:+ n) (a +:+ s) = true.
Proof. intros H. induction a as [|c a IH]; simpl; [done | by apply startswith_cons]. Qed.

Local Arguments Str.contains : simpl never.
Local Arguments Str.startswith : simpl never.

Ltac starts :=
  solve [repeat first [apply startswith_nil | apply startswith_cons | apply startswith_app]].

Ltac find_text :=
  rewrite ?append_assoc; simpl;
  repeat first [apply contains_here; starts | apply contains_cons | apply contains_app_r].

(** X18. The HAL scaffold declares and uses the configured names: with
    [s] the [target_struct] (or [GenericHalImpl] when absent) and [t] the
    [trait_impl] (or [GenericTrait]), the text holds the declaration of
    the structure [s], its own implementation block, the implementation
    of [t] for [s], and the test that builds an [s]. *)
Theorem hal_template_names :
  forall config specs,
    let s := default "GenericHalImpl" (target_struct config) in
    let t := default "GenericTrait" (trait_impl config) in
    let text := generate HalImplementationTemplate config specs in
    Str.contains ("pub struct " +:+ s +:+ " {") text = true
    /\ Str.contains ("impl " +:+ s +:+ " {") text = true
    /\ Str.contains ("impl " +:+ t +:+ " for " +:+ s +:+ " {") text = true
    /\ Str.contains ("let mut impl_instance = " +:+ s +:+ "::new();") text = true.
Proof.
  intros config specs s t text. unfold text.
  cbn [generate HalImplementationTemplate]. unfold HalImplementationTemplate_generate.
  fold s t. generalize s t (_build_traceability_comment config specs).
  clear. intros s t comment.
  repeat split; do 2 apply contains_app_r; find_text.
Qed.

(** X19. The control-loop scaffold declares the structure named by
    [target_struct] (or [GenericController] when absent), its
    implementation block, and the update operation taking a time step. *)
Theorem control_template_names :
  forall config specs,
    let s := default "GenericController" (target_struct config) in
    let text := generate ControlSystemTemplate config specs in
    Str.contains ("pub struct " +:+ s +:+ " {") text = true
    /\ Str.contains ("impl " +:+ s +:+ " {") text = true
    /\ Str.contains "pub fn update(&mut self, dt: f32) -> HalResult<()> {" text = true.
Proof.
  intros config specs s text. unfold text.
  cbn [generate ControlSystemTemplate]. unfold ControlSystemTemplate_generate.
  fold s. generalize s. clear. intros s.
  repeat split; [find_text | find_text |].
  do 4 apply contains_app_r. reflexivity.
Qed.

(** X20. The header of the HAL scaffold: without traceability IDs (field
    absent or empty) it is the generic line, whatever the windows; with
    IDs it lists them, separated by a comma and a space, and cites the
    first window, or a fixed text when there is no window. *)
Theorem hal_template_header :
  forall config specs,
    let ids := default [] (traceability_ids config) in
    let text := generate HalImplementationTemplate config specs in
    (ids = [] ->
     Str.contains "//! Generated from project specifications

use crate" text = true)
    /\ (ids <> [] ->
        Str.contains (Str.join ", " ids +:+ ": Generated Implementation") text = true
        /\ Str.contains ("AI Traceability: "
                         +:+ default "Generated from specifications" (head specs) +:+ "

use crate") text = true).
Proof.
  intros config specs ids text. unfold text.
  cbn [generate HalImplementationTemplate].
  unfold HalImplementationTemplate_generate, _build_traceability_comment. fold ids.
  generalize (default "GenericHalImpl" (target_struct config))
             (default "GenericTrait" (trait_impl config)) ids.
  clear. intros s t ids. split.
  - intros ->. find_text.
  - intros Hids. destruct ids as [|id_str ids]; [done|].
    generalize (Str.join ", " (id_str :: ids)). intros joined.
    split; [find_text|].
    destruct specs as [|s0 specs]; cbn [head default from_option id]; find_text.
Qed.
End Scaffolds.

Lemma hal_template_header_witness :
  Str.contains "//! Generated from project specifications

use crate" (generate HalImplementationTemplate Sample.control_entry ["window"]) = true
  /\ Str.contains "T1-REQ-001: Generated Implementation"
       (generate HalImplementationTemplate Sample.hal_entry ["window"; "other"]) = true
  /\ Str.contains "AI Traceability: window

use crate" (generate HalImplementationTemplate Sample.hal_entry ["window"; "other"]) = true.
Proof.
  destruct (hal_template_header Sample.control_entry ["window"]) as [Hnone _].
  destruct (hal_template_header Sample.hal_entry ["window"; "other"]) as [_ Hsome].
  split; [by apply Hnone|]. by apply Hsome.
Defined.

(** X21. The HAL scaffold is a function of [target_struct],
    [trait_impl], the list of traceability IDs and the first window:
    [template], [safety_requirements] and the windows after the first
    have no influence, and without IDs no window has. *)
Theorem hal_template_depends_on :
  forall config1 config2 specs1 specs2,
    target_struct config1 = target_struct config2 ->
    trait_impl config1 = trait_impl config2 ->
    default [] (traceability_ids config1) = default [] (traceability_ids config2) ->
    (default [] (traceability_ids config1) = [] \/ head specs1 = head specs2) ->
    generate HalImplementationTemplate config1 specs1
    = generate HalImplementationTemplate config2 specs2.
Proof.
  intros config1 config2 specs1 specs2 Hs Ht Hids Hspecs.
  cbn [generate HalImplementationTemplate].
  unfold HalImplementationTemplate_generate, _build_traceability_comment.
  rewrite <- Hs, <- Ht, <- Hids.
  destruct (default [] (traceability_ids config1)) as [|id_str ids]; [done|].
  destruct Hspecs as [[=]|Hhead].
  destruct specs1, specs2; cbn in Hhead; by simplify_eq.
Qed.

Lemma hal_template_depends_on_witness :
  generate HalImplementationTemplate Sample.hal_entry ["window"; "second"]
  = generate HalImplementationTemplate
      (mkGeneratorConfig (Some "control_system") (Some "FooImpl") (Some "BarTrait")
         (Some ["no-overrun"]) (Some ["T1-REQ-001"]))
      ["window"].
Proof. apply hal_template_depends_on; try reflexivity. by right. Defined.

(** ** The printed summary *)

Lemma filter_error_collected fs s :
  filter (fun i => severity i = "error") (collected fs s)
  = map duplicate_issue (duplicates (tree_ids fs s)).
Proof.
  unfold collected. rewrite filter_app.
  assert (forall l, filter (fun i => severity i = "error") (map duplicate_issue l)
                    = map duplicate_issue l) as ->.
  { induction l as [|d l IH]; [done|]. cbn [map]. by rewrite filter_cons_True, IH. }
  assert (forall l, filter (fun i => severity i = "error") (map missing_issue l) = []) as ->.
  { induction l as [|d l IH]; [done|]. cbn [map]. by rewrite filter_cons_False. }
  apply app_nil_r.
Qed.

Lemma filter_warning_collected fs s :
  filter (fun i => severity i = "warning") (collected fs s)
  = map missing_issue
        (filter (fun t => absent fs s t = true) (configured_targets s)).
Proof.
  unfold collected. rewrite filter_app.
  assert (forall l, filter (fun i => severity i = "warning") (map duplicate_issue l) = [])
    as ->.
  { induction l as [|d l IH]; [done|]. cbn [map]. by rewrite filter_cons_False. }
  assert (forall l, filter (fun i => severity i = "warning") (map missing_issue l)
                    = map missing_issue l) as ->.
  { induction l as [|d l IH]; [done|]. cbn [map]. by rewrite filter_cons_True, IH. }
  done.
Qed.

Lemma length_filter_count {A} (p : A -> bool) (l : list A) :
  length (filter (fun x => p x = true) l) = count p l.
Proof.
  induction l as [|x l IH]; [done|]. rewrite filter_cons. cbn [count].
  destruct (decide (p x = true)) as [Hp|Hp].
  - rewrite Hp. cbn. by rewrite IH.
  - apply not_true_is_false in Hp. by rewrite Hp, IH.
Qed.

(** X22. The summary of a run, printed from the state the checks leave:
    with no repeated ID and no absent target, the two lines of a clean
    result; otherwise a first line counting as errors the repeated ID
    occurrences and as warnings the absent targets, then the lines of the
    first five issues, each with its icon, category and message. *)
Theorem summary_after_run :
  forall fs blocking st,
    let repeated := later_occurrences [] (tree_ids fs (self st)) in
    let missing :=
      filter (fun target => absent fs (self st) target = true)
             (configured_targets (self st)) in
    _print_validation_summary (validate_all fs blocking st).2
    = match repeated ++ missing with
      | [] =>
          ["✅ All systematic engineering requirements validated";
           "💡 Health Score: 100%"]
      | _ =>
          ("⚠️ Found " +:+ str_of_nat (length repeated) +:+ " errors, "
           +:+ str_of_nat (length missing) +:+ " warnings")
          :: take 5
               (map (fun id_str =>
                       "  ❌ duplicate_id: Duplicate traceability ID: " +:+ id_str)
                    repeated
                ++ map (fun target =>
                          "  ⚠️ missing_file: Referenced file missing: " +:+ target)
                       missing)
      end.
Proof.
  intros fs blocking st repeated missing.
  unfold _print_validation_summary. rewrite issues_after_validate_all.
  rewrite filter_error_collected, filter_warning_collected, !length_map.
  unfold collected. rewrite duplicates_later. fold repeated missing.
  rewrite <- firstn_map, map_app, !map_map.
  destruct repeated as [|id_str repeated]; [destruct missing as [|target missing]|];
    reflexivity.
Qed.

Lemma summary_after_run_witness :
  _print_validation_summary (validate_all Sample.fs false Sample.st).2
  = ["⚠️ Found 1 errors, 3 warnings";
     "  ❌ duplicate_id: Duplicate traceability ID: T3-SAF-001";
     "  ⚠️ missing_file: Referenced file missing: safety.md";
     "  ⚠️ missing_file: Referenced file missing: safety.md";
     "  ⚠️ missing_file: Referenced file missing: glossary.md"].
Proof. exact (summary_after_run Sample.fs false Sample.st). Defined.

Example summary_clean_and_long :
  _print_validation_summary (validate_all Sample.fs_clean false Sample.st).2
  = ["✅ All systematic engineering requirements validated";
     "💡 Health Score: 100%"]
  /\ _print_validation_summary (validate_all Cases.fs_many false Sample.st).2
     = ["⚠️ Found 5 errors, 4 warnings";
        "  ❌ duplicate_id: Duplicate traceability ID: T1-A-1";
        "  ❌ duplicate_id: Duplicate traceability ID: T1-A-1";
        "  ❌ duplicate_id: Duplicate traceability ID: T2-B-2";
        "  ❌ duplicate_id: Duplicate traceability ID: T1-A-1";
        "  ❌ duplicate_id: Duplicate traceability ID: T2-B-2"].
Proof. split; reflexivity. Qed.

(** ** The command line *)

(** X23. [main] ends by [sys.exit] in one case only, with status 1: the
    configuration file exists, loads and has [project_name], the command
    is [validate], [--blocking] is among the arguments, and some ID
    occurs more than once under [docs]. *)
Theorem main_exit_status :
  forall argv fs read h status,
    main argv fs read h = SysExit status
    <-> status = 1
        /\ (2 <= length argv)%nat
        /\ path_exists fs "tools/project-config.json" = true
        /\ argv !! 1%nat = Some "validate"
        /\ "--blocking" ∈ argv
        /\ exists object,
             read = Some object
             /\ has_project_name object = true
             /\ ~ NoDup (tree_ids fs
                           (self (init_attributes "tools/project-config.json"
                                    (typed object) h))).
Proof.
  intros argv fs read h status. unfold main.
  destruct (Nat.ltb_spec (length argv) 2) as [Hshort|Hlong].
  { split; [done | intros (_ & ? & _); lia]. }
  destruct (path_exists fs "tools/project-config.json") eqn:Hpath; cbn [negb].
  2:{ split; [done | by intros (_ & _ & ? & _)]. }
  destruct read as [object|]; cbn [construct fmap option_fmap option_map __init__ _load_config].
  2:{ split; [done | by intros (_ & _ & _ & _ & _ & object & ? & _)]. }
  cbn [default from_option id].
  destruct (argv !! 1%nat) as [command|] eqn:Hcommand.
  2:{ apply lookup_ge_None in Hcommand. lia. }
  cbn [default from_option id].
  destruct (String.eqb_spec command "validate") as [->|Hne].
  - unfold validate_all_call. destruct (has_project_name object) eqn:Hnamed.
    + pose proof (blocking_exit_iff_repeated fs
                    (init_attributes "tools/project-config.json" (typed object) h)) as Hexit.
      rewrite validate_all_spec in *. cbn [fst] in *.
      case_bool_decide as Hblocking; cbn [andb] in *.
      * destruct (existsb is_error _).
        -- split.
           ++ intros [= <-]. repeat split; try done. exists object.
              split; [done|]. split; [done|]. by apply Hexit.
           ++ by intros (-> & _).
        -- split; [done|]. intros (_ & _ & _ & _ & _ & object' & [= <-] & _ & Hdup).
           by apply Hexit in Hdup.
      * split; [done | by intros (_ & _ & _ & _ & ? & _)].
    + cbn [fst]. split; [done|].
      intros (_ & _ & _ & _ & _ & object' & [= <-] & Hnamed' & _). congruence.
  - split.
    + repeat case_match; done.
    + intros (_ & _ & _ & [= ?] & _). done.
Qed.

Lemma main_exit_status_witness :
  main ["core.py"; "validate"; "--blocking"] Cases.fs_config (Some Cases.named) ∅ = SysExit 1.
Proof.
  apply main_exit_status. repeat split; try reflexivity.
  - cbn. lia.
  - set_solver.
  - exists Cases.named. split; [reflexivity|]. split; [reflexivity|]. vm_compute.
    intros Hnd. apply NoDup_cons in Hnd as [_ Hnd]. apply NoDup_cons in Hnd as [Hnotin _].
    apply Hnotin. by left.
Defined.



Example main_runs :
  main ["core.py"; "validate"] Cases.fs_config (Some Cases.named) ∅ = Finished
  /\ main ["core.py"; "validate"; "--blocking"] Sample.fs (Some Cases.named) ∅ = Finished
  /\ main ["core.py"; "validate"; "--blocking"] Cases.fs_config (Some Cases.unnamed) ∅
     = Uncaught "KeyError: 'project_name'"
  /\ main ["core.py"; "generate"; "fsm"] Cases.fs_config (Some Cases.named) ∅ = Finished.
Proof. repeat split. Qed.


Example flight_controller_demo_runs :
  flight_controller_demo Sample.fs (Some Cases.named) ∅ = SysExit 0
  /\ flight_controller_demo Sample.fs (Some Cases.unnamed) ∅ = SysExit 1
  /\ flight_controller_demo Sample.fs None ∅ = SysExit 1.
Proof. repeat split. Qed.

(** ** What the scan takes for an ID *)

Section Pattern.
Local Arguments String.append : simpl nomatch.

Lemma span_spec p s a b :
  Re.span p s = (a, b) -> s = a +:+ b /\ all_chars p a = true.
Proof.
  revert a b. induction s as [|c s IH]; intros a b; cbn [Re.span].
  - by intros [= <- <-].
  - destruct (p c) eqn:Hp.
    + destruct (Re.span p s) as [a' b'] eqn:Hspan. intros [= <- <-].
      destruct (IH a' b' eq_refl) as [-> Hall]. cbn. by rewrite Hp, Hall.
    + by intros [= <- <-].
Qed.

Lemma utf8_decode_length s cp n : Re.utf8_decode s = Some (cp, n) -> (n <= String.length s)%nat.
Proof.
  unfold Re.utf8_decode. destruct s as [|c1 r1]; [done|]. cbv zeta.
  repeat case_match; intros [= <- <-]; cbn [String.length]; lia.
Qed.

Lemma digit_len_length s : (Re.digit_len s <= String.length s)%nat.
Proof.
  unfold Re.digit_len. destruct (Re.utf8_decode s) as [[cp n]|] eqn:Hdec; [|lia].
  apply utf8_decode_length in Hdec. case_match; lia.
Qed.

(** Whether a text starts with a character depends on the bytes of that
    character only. *)
Lemma utf8_decode_local c a b cp k :
  Re.utf8_decode (String c (a +:+ b)) = Some (cp, S k) ->
  (k <= String.length a)%nat ->
  Re.utf8_decode (String c a) = Some (cp, S k).
Proof.
  unfold Re.utf8_decode. cbv zeta.
  destruct (Re.byte c <? 128)%N; [done|].
  destruct (Re.byte c <? 192)%N; [done|].
  destruct (Re.byte c <? 224)%N; [|destruct (Re.byte c <? 240)%N].
  - destruct a as [|c2 a]; cbn [String.append String.length]; [|done].
    intros H Hk. repeat case_match; simplify_eq; lia.
  - destruct a as [|c2 [|c3 a]]; cbn [String.append String.length]; [| |done];
      intros H Hk; repeat case_match; simplify_eq; lia.
  - destruct a as [|c2 [|c3 [|c4 a]]]; cbn [String.append String.length]; [| | |done];
      intros H Hk; repeat case_match; simplify_eq; lia.
Qed.

Lemma digit_len_local c a b k :
  Re.digit_len (String c (a +:+ b)) = S k ->
  (k <= String.length a)%nat ->
  Re.digit_len (String c a) = S k.
Proof.
  unfold Re.digit_len.
  destruct (Re.utf8_decode (String c (a +:+ b))) as [[cp n]|] eqn:Hdec; [|done].
  destruct (Re.is_decimal cp) eqn:Hcp; [|done]. intros -> Hk.
  by rewrite (utf8_decode_local _ _ _ _ _ Hdec Hk), Hcp.
Qed.

Lemma span_digits_go_spec s k a b :
  Re.span_digits_go k s = (a, b) ->
  (k <= String.length s)%nat ->
  s = a +:+ b /\ Re.digits_only_go k a = true /\ (k <= String.length a)%nat.
Proof.
  revert k a b. induction s as [|c r IH]; intros k a b; cbn [Re.span_digits_go String.length].
  - intros [= <- <-] Hk. by replace k with 0%nat by lia.
  - destruct k as [|k].
    + destruct (Re.digit_len (String c r)) as [|k] eqn:Hlen.
      * intros [= <- <-] _. repeat split; lia.
      * destruct (Re.span_digits_go k r) as [a' b'] eqn:Hspan. intros [= <- <-] _.
        pose proof (digit_len_length (String c r)) as Hle.
        rewrite Hlen in Hle. cbn [String.length] in Hle.
        destruct (IH k a' b' Hspan ltac:(lia)) as (Hr & Hdigits & Hk). subst r.
        split; [done|]. split; [|cbn [String.length]; lia].
        cbn [Re.digits_only_go]. by rewrite (digit_len_local _ _ _ _ Hlen Hk).
    + destruct (Re.span_digits_go k r) as [a' b'] eqn:Hspan. intros [= <- <-] Hle.
      destruct (IH k a' b' Hspan ltac:(lia)) as (Hr & Hdigits & Hk). subst r.
      split; [done|]. split; [done|]. cbn [String.length]. lia.
Qed.

Lemma span_digits_spec s a b :
  Re.span_digits s = (a, b) -> s = a +:+ b /\ Re.digits_only a = true.
Proof.
  intros H. apply span_digits_go_spec in H as (? & ? & _); [done|lia].
Qed.

Lemma match_id_spec s m :
  Re.match_id s = Some m -> id_shaped m /\ exists rest, s = m +:+ rest.
Proof.
  unfold Re.match_id. intros H.
  repeat (case_match; try discriminate); simplify_eq.
  repeat match goal with
         | H : Re.span _ _ = _ |- _ => apply span_spec in H as [? ?]
         | H : Re.span_digits _ = _ |- _ => apply span_digits_spec in H as [? ?]
         end; subst.
  split.
  - eexists _, _, _. split; [reflexivity|]. repeat split; done.
  - eexists. simpl. rewrite !append_assoc. simpl. rewrite !append_assoc. reflexivity.
Qed.

Lemma findall_go_spec s k x :
  x ∈ Re.findall_go k s -> id_shaped x /\ Str.contains x s = true.
Proof.
  revert k. induction s as [|c s IH]; intros k; cbn [Re.findall_go].
  - by intros ?%elem_of_nil.
  - destruct k as [|k].
    + destruct (Re.match_id (String c s)) as [m|] eqn:Hm.
      * intros [->|Hin]%elem_of_cons.
        -- apply match_id_spec in Hm as [Hshape [rest Hrest]]. split; [done|].
           apply contains_spec. exists EmptyString, rest. by rewrite Hrest.
        -- destruct (IH _ Hin) as [Hshape Hc]. split; [done|].
           by apply (contains_app_r _ (String c EmptyString)).
      * intros Hin. destruct (IH _ Hin) as [Hshape Hc]. split; [done|].
        by apply (contains_app_r _ (String c EmptyString)).
    + intros Hin. destruct (IH _ Hin) as [Hshape Hc]. split; [done|].
      by apply (contains_app_r _ (String c EmptyString)).
Qed.

End Pattern.

(** The scan on digits of several scripts and lengths in UTF-8: fullwidth
    and Arabic-Indic digits (three and two bytes) and mathematical bold
    digits (four bytes) are digits; the superscript two is none, and an
    accented capital is no capital of [[A-Z]]. *)
Example findall_ids_unicode :
  Re.findall_ids "T１２-REQ-٣4 and T²-REQ-1, T1-RÉQ-2, T𝟎-A-𝟗x" = ["T１２-REQ-٣4"; "T𝟎-A-𝟗"]
  /\ Re.findall_ids "T1-REQ-001T2-A-3-4" = ["T1-REQ-001"; "T2-A-3"]
  /\ Re.digits_only "٣4𝟗" = true
  /\ Re.digits_only "4²" = false.
Proof. repeat split. Qed.

(** X26. Every ID occurrence the scan finds has the form [T], digits, a
    dash, capital letters, a dash, digits (each run non-empty), and is a
    piece of the text of a scanned document. *)
Theorem tree_ids_well_formed :
  forall fs s id_str,
    id_str ∈ tree_ids fs s ->
    id_shaped id_str
    /\ exists doc, doc ∈ glob fs (docs_dir s) "*.md" /\ Str.contains id_str doc.2 = true.
Proof.
  intros fs s id_str. unfold tree_ids.
  intros (ids & Hids & Hin)%list_elem_of_In%in_concat.
  apply in_map_iff in Hids as (doc & <- & Hdoc%list_elem_of_In).
  apply list_elem_of_In, findall_go_spec in Hin as [Hshape Hc].
  split; [done|]. by exists doc.
Qed.

Lemma tree_ids_well_formed_witness :
  id_shaped "T3-SAF-002"
  /\ exists doc, doc ∈ glob Sample.fs "docs" "*.md" /\ Str.contains "T3-SAF-002" doc.2 = true.
Proof.
  apply (tree_ids_well_formed Sample.fs (self Sample.st)). vm_compute.
  do 3 right. by left.
Defined.
